(** * Chat relay server: session registry, pairing table and dispatcher

    A shallow embedding of [server/server.py].  The two shared dictionaries
    [clients] and [pairs] are finite maps; every [with clients_lock:] block is
    one indivisible step of a worker; everything a worker writes to a socket
    is appended to a log, so that replies and notices can be stated exactly. *)

From Stdlib Require Import Ascii.
From Stdlib Require String.
From stdpp Require Import gmap strings sorting.

(** ** The fragment of Python's [str] used by the server

    A [str] is a sequence of code points; the model keeps the code points
    below 256, which is what [ascii] holds. *)
Module Py.

(** [str.isspace] on one code point below 256. *)
Definition isspace (c : ascii) : bool :=
  let n := nat_of_ascii c in
  ((9 <=? n) && (n <=? 13)) || ((28 <=? n) && (n <=? 32))
  || (n =? 133) || (n =? 160).

(** [str.lower] on one code point below 256. *)
Definition lower_char (c : ascii) : ascii :=
  let n := nat_of_ascii c in
  if ((65 <=? n) && (n <=? 90))
     || ((192 <=? n) && (n <=? 222) && negb (n =? 215))
  then ascii_of_nat (n + 32) else c.

Fixpoint lower (s : string) : string :=
  match s with
  | EmptyString => EmptyString
  | String c r => String (lower_char c) (lower r)
  end.

(** Drop the longest prefix of characters satisfying [p]. *)
Fixpoint drop_while (p : ascii → bool) (s : string) : string :=
  match s with
  | EmptyString => EmptyString
  | String c r => if p c then drop_while p r else s
  end.

(** The longest prefix of characters not satisfying [p]. *)
Fixpoint take_until (p : ascii → bool) (s : string) : string :=
  match s with
  | EmptyString => EmptyString
  | String c r => if p c then EmptyString else String c (take_until p r)
  end.

Definition lstrip (s : string) : string := drop_while isspace s.
Definition rstrip (s : string) : string :=
  String.rev (drop_while isspace (String.rev s)).

(** [s.strip()] *)
Definition strip (s : string) : string := rstrip (lstrip s).

(** The line terminator [\n]. *)
Definition newline : string := String (ascii_of_nat 10) EmptyString.

(** [s.rstrip("\n")] *)
Definition is_newline (c : ascii) : bool := nat_of_ascii c =? 10.
Definition rstrip_newline (s : string) : string :=
  String.rev (drop_while is_newline (String.rev s)).

(** [s.startswith("/")] *)
Definition startswith_slash (s : string) : bool :=
  match s with
  | String c _ => nat_of_ascii c =? 47
  | EmptyString => false
  end.

(** [s.split(maxsplit=1)]: runs of whitespace separate, leading whitespace
    is skipped, and after the first word the rest of the string is kept as
    it is, trailing whitespace included; no empty word is produced. *)
Definition split1 (s : string) : list string :=
  let s1 := lstrip s in
  match s1 with
  | EmptyString => []
  | _ =>
      let word := take_until isspace s1 in
      let rest := lstrip (drop_while (λ c, negb (isspace c)) s1) in
      match rest with
      | EmptyString => [word]
      | _ => [word; rest]
      end
  end.

(** [sep.join(l)] *)
Fixpoint join (sep : string) (l : list string) : string :=
  match l with
  | [] => ""
  | [x] => x
  | x :: r => x +:+ sep +:+ join sep r
  end.

(** [sorted(l)] on a list of [str]: a stable merge sort by code points. *)
Definition sorted (l : list string) : list string := merge_sort String.le l.

End Py.

(** ** Data model *)

(** A connection handle ([socket.socket]); opaque to the server. *)
Definition socket := nat.

(** What a worker does to the transport: [sock.sendall(data)],
    [safe_close(sock)] and [f.close()] on the reader made from [conn]. *)
Inductive event :=
| Sent (to : socket) (data : string)
| Closed (s : socket)
| ReaderClosed (s : socket).

Global Instance event_eq_dec : EqDecision event.
Proof. solve_decision. Defined.

(** The module globals [clients] (username -> socket) and [pairs]
    (username -> partner username), with the log of transport events. *)
Record world := World {
  clients : gmap string socket;
  pairs : gmap string string;
  wire : list event
}.

Definition set_clients (c : gmap string socket) (w : world) : world :=
  World c (pairs w) (wire w).
Definition set_pairs (p : gmap string string) (w : world) : world :=
  World (clients w) p (wire w).
Definition emit (e : event) (w : world) : world :=
  World (clients w) (pairs w) (wire w ++ [e]).

(** Truth value of an [str | None]: [None] and the empty string are false. *)
Definition truthy (o : option string) : bool :=
  match o with
  | Some s => if decide (s = "") then false else true
  | None => false
  end.

(** ** Workers

    Code that runs without being interrupted is a function on the world;
    a worker is a tree of such steps.  A step marked [locked] is the body of
    a [with clients_lock:] block. *)
Definition crit (B : Type) : Type := world → B * world.

Inductive prog (A : Type) : Type :=
| Ret (a : A)
| Step {B : Type} (locked : bool) (body : crit B) (k : B → prog A).
Arguments Ret {A} a.
Arguments Step {A B} locked body k.

Fixpoint prog_bind {A B} (g : A → prog B) (p : prog A) : prog B :=
  match p with
  | Ret a => g a
  | Step l body k => Step l body (λ b, prog_bind g (k b))
  end.

Global Instance prog_mret : MRet prog := @Ret.
Global Instance prog_mbind : MBind prog := @prog_bind.

Definition with_lock {B} (body : crit B) : prog B := Step true body Ret.
Definition no_lock {B} (body : crit B) : prog B := Step false body Ret.

(** A worker that is never interrupted. *)
Fixpoint exec {A} (p : prog A) (w : world) : A * world :=
  match p with
  | Ret a => (a, w)
  | Step _ body k => let '(b, w') := body w in exec (k b) w'
  end.

(** The number of critical sections a worker enters on its run from [w]. *)
Fixpoint sections {A} (p : prog A) (w : world) : nat :=
  match p with
  | Ret _ => 0
  | Step l body k =>
      let '(b, w') := body w in (if l then 1 else 0) + sections (k b) w'
  end.

(** One step of a worker, when another worker may run next. *)
Definition pstep {A} (p : prog A) (w : world) : option (prog A * world) :=
  match p with
  | Ret _ => None
  | Step _ body k => let '(b, w') := body w in Some (k b, w')
  end.

(** The server: the world and one worker per accepted connection.  A
    schedule names, step by step, the worker that runs; a worker that has
    returned is skipped. *)
Definition server : Type := world * list (prog unit).

Definition sched_step (i : nat) (sv : server) : server :=
  match sv.2 !! i with
  | Some p =>
      match pstep p sv.1 with
      | Some (p', w') => (w', <[i := p']> sv.2)
      | None => sv
      end
  | None => sv
  end.

Definition run (schedule : list nat) (sv : server) : server :=
  foldl (λ sv i, sched_step i sv) sv schedule.

(** ** [server.py] *)

Definition sendall (s : socket) (data : string) : crit unit :=
  λ w, (tt, emit (Sent s data) w).

Definition send_line (s : socket) (text : string) : prog unit :=
  no_lock (sendall s (text +:+ Py.newline)).

Definition safe_close (s : socket) : prog unit :=
  no_lock (λ w, (tt, emit (Closed s) w)).

Definition close_reader (s : socket) : prog unit :=
  no_lock (λ w, (tt, emit (ReaderClosed s) w)).

(** The critical section of [cleanup_user]: the user's socket and, when the
    pairing was mutual, the partner's socket. *)
Definition cleanup_section (username : string) : crit (option socket * option socket) :=
  λ w,
    let sock := clients w !! username in
    let w := set_clients (delete username (clients w)) w in
    let partner := pairs w !! username in
    let w := set_pairs (delete username (pairs w)) w in
    match partner with
    | Some p =>
        if decide (pairs w !! p = Some username)
        then
          let w := set_pairs (delete p (pairs w)) w in
          ((sock, clients w !! p), w)
        else ((sock, None), w)
    | None => ((sock, None), w)
    end.

Definition cleanup_user (username : string) : prog unit :=
  '(sock, partner_sock) ← with_lock (cleanup_section username);
  match partner_sock with
  | Some ps =>
      send_line ps ("[SERVER] " +:+ username +:+ " disconnected. Chat closed.")
  | None => mret tt
  end;;
  match sock with
  | Some s => safe_close s
  | None => mret tt
  end.

Definition set_pair (a b : string) : prog unit :=
  with_lock (λ w, (tt, set_pairs (<[b := a]> (<[a := b]> (pairs w))) w)).

Definition get_partner (username : string) : prog (option string) :=
  with_lock (λ w, (pairs w !! username, w)).

Definition get_socket (username : string) : prog (option socket) :=
  with_lock (λ w, (clients w !! username, w)).

(** [[u for u in clients.keys() if u != except_name]], then [sorted]. *)
Definition other_users (except_name : string) (w : world) : list string :=
  filter (λ u, u ≠ except_name) (map_to_list (clients w)).*1.

Definition list_users (except_name : string) : prog (list string) :=
  with_lock (λ w, (Py.sorted (other_users except_name w), w)).

(** The block that breaks a pairing in [/chat] and [/leave]. *)
Definition unpair_section (username partner : string) : crit unit :=
  λ w,
    let w :=
      if decide (pairs w !! partner = Some username)
      then set_pairs (delete partner (pairs w)) w else w in
    (tt, set_pairs (delete username (pairs w)) w).

(** What one call of [f.readline()] gives: a line with its terminator, the
    empty string at end of stream, or an exception (reset peer, bytes that
    are not UTF-8). *)
Inductive read :=
| Got (line : string)
| Raised.

(** How one turn of the main loop ends: [continue] (or falling off the end
    of the body), [break], or an exception caught by [except Exception]. *)
Inductive flow :=
| Continue
| Break
| Raise.

(** [/users] *)
Definition do_users (conn : socket) (username : string) : prog flow :=
  users ← list_users username;
  match users with
  | [] => send_line conn "[SERVER] No other users online."
  | _ => send_line conn ("[SERVER] Online: " +:+ Py.join ", " users)
  end;;
  mret Continue.

(** The end of [/chat]: the test that refuses a busy target, and pairing. *)
Definition chat_install (conn : socket) (username target : string)
  (target_sock : socket) : prog flow :=
  target_partner ← get_partner target;
  let start :=
    set_pair username target;;
    send_line conn ("[SERVER] Chat started with " +:+ target +:+ ".");;
    send_line target_sock
      ("[SERVER] " +:+ username
       +:+ " started a chat with you. You are now connected.");;
    mret Continue in
  match target_partner with
  | Some tp =>
      if truthy target_partner && bool_decide (tp ≠ username)
      then
        send_line conn
          ("[SERVER] '" +:+ target +:+ "' is already chatting with '"
           +:+ tp +:+ "'.");;
        mret Continue
      else start
  | None => start
  end.

(** [/chat], with [args] the words after the command ([parts[1:]]). *)
Definition do_chat (conn : socket) (username : string) (args : list string)
  : prog flow :=
  match args with
  | [] => send_line conn "[SERVER] Usage: /chat <username>";; mret Continue
  | arg :: _ =>
    if decide (Py.strip arg = "")
    then send_line conn "[SERVER] Usage: /chat <username>";; mret Continue
    else
      let target := Py.strip arg in
      if decide (target = username)
      then send_line conn "[SERVER] You can't chat with yourself.";; mret Continue
      else
        target_sock ← get_socket target;
        match target_sock with
        | None =>
            send_line conn ("[SERVER] User '" +:+ target +:+ "' not found.");;
            mret Continue
        | Some tsock =>
            old_partner ← get_partner username;
            match old_partner with
            | Some old =>
                if truthy old_partner then
                  with_lock (unpair_section username old);;
                  old_partner_sock ← get_socket old;
                  match old_partner_sock with
                  | Some osock =>
                      send_line osock
                        ("[SERVER] " +:+ username +:+ " left the chat.")
                  | None => mret tt
                  end;;
                  send_line conn
                    ("[SERVER] Left previous chat with " +:+ old +:+ ".")
                else mret tt
            | None => mret tt
            end;;
            chat_install conn username target tsock
        end
  end.

(** [/leave] *)
Definition do_leave (conn : socket) (username : string) : prog flow :=
  partner ← get_partner username;
  match partner with
  | Some p =>
      if truthy partner then
        with_lock (unpair_section username p);;
        partner_sock ← get_socket p;
        match partner_sock with
        | Some psock =>
            send_line psock ("[SERVER] " +:+ username +:+ " left the chat.")
        | None => mret tt
        end;;
        send_line conn ("[SERVER] You left the chat with " +:+ p +:+ ".");;
        mret Continue
      else send_line conn "[SERVER] You're not in a chat.";; mret Continue
  | None => send_line conn "[SERVER] You're not in a chat.";; mret Continue
  end.

(** A line that is not a command: forward to the partner, if there is one. *)
Definition do_message (conn : socket) (username msg : string) : prog flow :=
  partner ← get_partner username;
  match partner with
  | Some p =>
      if truthy partner then
        partner_sock ← get_socket p;
        match partner_sock with
        | None =>
            with_lock (λ w, (tt, set_pairs (delete username (pairs w)) w));;
            send_line conn "[SERVER] Partner disconnected. Chat closed.";;
            mret Continue
        | Some psock =>
            send_line psock (username +:+ ": " +:+ msg);;
            mret Continue
        end
      else
        send_line conn
          "[SERVER] You're not in a chat. Use /users then /chat <username>.";;
        mret Continue
  | None =>
      send_line conn
        "[SERVER] You're not in a chat. Use /users then /chat <username>.";;
      mret Continue
  end.

(** The body of [while True:], from the line [readline] returned. *)
Definition loop_body (conn : socket) (username line : string) : prog flow :=
  if decide (line = "") then mret Break
  else
    let msg := Py.rstrip_newline line in
    if decide (msg = "") then mret Continue
    else if Py.startswith_slash msg then
      match Py.split1 msg with
      | [] => mret Raise
      | word :: args =>
          let cmd := Py.lower word in
          if decide (cmd = "/users") then do_users conn username
          else if decide (cmd = "/chat") then do_chat conn username args
          else if decide (cmd = "/leave") then do_leave conn username
          else if decide (cmd = "/quit")
               then send_line conn "[SERVER] Bye.";; mret Break
          else send_line conn "[SERVER] Unknown command.";; mret Continue
      end
    else do_message conn username msg.

(** The main loop over what the connection delivers.  A stream that is
    used up is at its end: [readline] returns the empty string. *)
Fixpoint main_loop (conn : socket) (username : string) (stream : list read)
  : prog unit :=
  match stream with
  | [] => mret tt
  | Raised :: _ => mret tt
  | Got line :: rest =>
      fl ← loop_body conn username line;
      match fl with
      | Continue => main_loop conn username rest
      | Break | Raise => mret tt
      end
  end.

(** The [finally:] block; [username] is [None] while nothing was read. *)
Definition finally (conn : socket) (username : option string) : prog unit :=
  (if truthy username
   then match username with
        | Some u => cleanup_user u
        | None => mret tt
        end
   else safe_close conn);;
  close_reader conn.

(** The critical section that registers: [false] when the name is taken. *)
Definition register_section (conn : socket) (username : string) : crit bool :=
  λ w,
    match clients w !! username with
    | Some _ =>
        let '(_, w) :=
          sendall conn ("[SERVER] Username already taken. Bye." +:+ Py.newline) w in
        (false, w)
    | None => (true, set_clients (<[username := conn]> (clients w)) w)
    end.

Definition greeting (conn : socket) (username : string) : prog unit :=
  send_line conn ("[SERVER] Hello " +:+ username +:+ "!");;
  send_line conn "[SERVER] Commands:";;
  send_line conn "  /users                -> list online users";;
  send_line conn "  /chat <username>      -> start chat with user";;
  send_line conn "  /leave                -> leave current chat";;
  send_line conn "  /quit                 -> disconnect";;
  send_line conn "[SERVER] Tip: after /chat, just type messages normally.".

Definition handle_client (conn : socket) (stream : list read) : prog unit :=
  send_line conn "[SERVER] Welcome! Enter your username:";;
  match stream with
  | Raised :: _ => finally conn None
  | [] =>
      send_line conn "[SERVER] Empty username. Bye.";;
      finally conn (Some "")
  | Got line :: rest =>
      let username := Py.strip line in
      if decide (username = "")
      then
        send_line conn "[SERVER] Empty username. Bye.";;
        finally conn (Some username)
      else
        registered ← with_lock (register_section conn username);
        if registered : bool
        then
          greeting conn username;;
          main_loop conn username rest;;
          finally conn (Some username)
        else finally conn (Some username)
  end.

(** ** Vocabulary of the statements *)

(** The main loop reads [line] as the command [cmd] followed by the words
    [args]: the line, without its terminator, starts with a slash, and its
    first word is [cmd] up to the case of the letters. *)
Definition reads_as (line cmd : string) (args : list string) : Prop :=
  Py.startswith_slash (Py.rstrip_newline line) = true
  ∧ ∃ word, Py.split1 (Py.rstrip_newline line) = word :: args
            ∧ Py.lower word = cmd.

(** Every character of [s] is whitespace. *)
Fixpoint whitespace_only (s : string) : bool :=
  match s with
  | EmptyString => true
  | String c r => Py.isspace c && whitespace_only r
  end.

(** The three ways a registered session leaves its main loop, with what the
    loop writes on the way out: a [/quit] line, the end of the stream, or a
    failed read. *)
Inductive leaves (conn : socket) : list read → list event → Prop :=
| leaves_quit line args rest :
    reads_as line "/quit" args →
    leaves conn (Got line :: rest) [Sent conn ("[SERVER] Bye." +:+ Py.newline)]
| leaves_end_of_stream rest : leaves conn (Got "" :: rest) []
| leaves_stream_used_up : leaves conn [] []
| leaves_read_error rest : leaves conn (Raised :: rest) [].

(** The part of [handle_client] that a registered session still has to run:
    the main loop and the [finally:] block. *)
Definition session (conn : socket) (username : string) (stream : list read)
  : prog unit :=
  main_loop conn username stream;; finally conn (Some username).

(** Pairing symmetry: a partner points back, or is not registered. *)
Definition pairing_symmetric (w : world) : Prop :=
  ∀ a b, pairs w !! a = Some b →
         pairs w !! b = Some a ∨ clients w !! b = None.

(** The server before any connection. *)
Definition boot : world := World ∅ ∅ [].

(** The pairing table of a server whose commands never interleave: every
    entry points back, every paired name is registered, and the empty name
    is not registered. *)
Record well_paired (w : world) : Prop := WellPaired {
  wp_sym : ∀ a b, pairs w !! a = Some b → pairs w !! b = Some a;
  wp_reg : ∀ a b, pairs w !! a = Some b → is_Some (clients w !! a);
  wp_name : clients w !! "" = None
}.

(** The worlds reached when every operation runs to its end before the next
    one begins, and lines come from registered sessions only: registration
    of a free name, a turn of the main loop, teardown. *)
Inductive serial : world → Prop :=
| serial_boot : serial boot
| serial_register conn username w :
    serial w → username ≠ "" → clients w !! username = None →
    serial (exec (with_lock (register_section conn username)) w).2
| serial_line conn username line w :
    serial w → is_Some (clients w !! username) →
    serial (exec (loop_body conn username line) w).2
| serial_cleanup username w :
    serial w → serial (exec (cleanup_user username) w).2.

(** The worlds the server can be in: some connections, numbered from 1,
    each with the stream it delivers, and some schedule of their workers. *)
Definition workers (streams : list (list read)) : list (prog unit) :=
  imap (λ i stream, handle_client (S i) stream) streams.

Definition reachable (w : world) : Prop :=
  ∃ streams schedule, (run schedule (boot, workers streams)).1 = w.

(** A line as a client sends it. *)
Definition typed (text : string) : read := Got (text +:+ Py.newline).

(** *** Scenario: a name that is taken

    alice (connection 1) chats with bob (connection 2); connection 3 gives
    the name alice. *)
Definition alice_and_bob : world :=
  World {[ "alice" := 1; "bob" := 2 ]}
        {[ "alice" := "bob"; "bob" := "alice" ]} [].

(** *** Scenario: two [/chat] commands for the same target

    alice, dave and carol connect; alice and dave both type [/chat carol].
    In [racing], either worker has looked up carol's partner before the
    other one pairs; in [alice_first] and [dave_first] one [/chat] is over
    before the other begins.  The first nine steps of a worker are the
    prompt, the registration and the seven lines of the greeting; the three
    lookups of [/chat] ([get_socket] of the target, [get_partner] of the
    sender, [get_partner] of the target) are the next three; [set_pair] and
    its two notices are the last three, and a refusal is one step.  Each
    schedule stops when the commands are done: all three connections stay
    open. *)
Definition three_clients : list (list read) :=
  [ [typed "alice"; typed "/chat carol"];
    [typed "dave"; typed "/chat carol"];
    [typed "carol"] ].

Definition racing : list nat :=
  replicate 9 2 ++ replicate 12 0 ++ replicate 12 1
  ++ replicate 3 0 ++ replicate 3 1.

Definition alice_first : list nat :=
  replicate 9 2 ++ replicate 15 0 ++ replicate 13 1.

Definition dave_first : list nat :=
  replicate 9 2 ++ replicate 15 1 ++ replicate 13 0.

(** ** Properties of a worker, step by step *)

(** The names in the two dictionaries are in order: the empty name is not
    registered, and no pairing entry has the empty name on either side or
    the same name on both. *)
Definition tidy (w : world) : Prop :=
  clients w !! "" = None
  ∧ ∀ a b, pairs w !! a = Some b → a ≠ "" ∧ b ≠ "" ∧ a ≠ b.

(** Every step of [p] keeps [P], from the worlds that satisfy it and with
    the results the steps give there. *)
Fixpoint keeps (P : world → Prop) {A} (p : prog A) : Prop :=
  match p with
  | Ret _ => True
  | Step _ body k => ∀ w, P w → P (body w).2 ∧ keeps P (k (body w).1)
  end.

(** A property of every step of a worker, whatever the steps before it
    returned: [Q locked w w'] for a step that takes [w] to [w']. *)
Fixpoint every_step {A} (Q : bool → world → world → Prop) (p : prog A) : Prop :=
  match p with
  | Ret _ => True
  | Step l body k => (∀ w, Q l w (body w).2) ∧ ∀ b, every_step Q (k b)
  end.

(** The discipline of [clients_lock] for the worker of [conn]: outside a
    critical section a step writes one event to the transport and leaves
    both dictionaries alone; inside one, nothing is written, except for the
    notice of a taken name, which is sent with the lock held. *)
Definition lock_discipline (conn : socket) (locked : bool) (w w' : world)
  : Prop :=
  if locked
  then wire w' = wire w
       ∨ (wire w'
            = wire w ++ [Sent conn ("[SERVER] Username already taken. Bye."
                                    +:+ Py.newline)]
          ∧ clients w' = clients w ∧ pairs w' = pairs w)
  else clients w' = clients w ∧ pairs w' = pairs w
       ∧ ∃ e, wire w' = wire w ++ [e].

(** A worker whose last event, from every world, is the closing of the
    reader of [conn]. *)
Definition closes_reader_last (conn : socket) {A} (p : prog A) : Prop :=
  ∀ w, ∃ log, wire (exec p w).2 = wire w ++ log ++ [ReaderClosed conn].

(** ** Strings by their characters *)

(** Every character of [s] satisfies [p]. *)
Fixpoint all_chars (p : ascii → bool) (s : string) : bool :=
  match s with
  | EmptyString => true
  | String c r => p c && all_chars p r
  end.

(** [s] holds no line terminator: a string that [input()] returns, or a
    line of text without its end. *)
Definition one_line (s : string) : bool :=
  all_chars (λ c, negb (Py.is_newline c)) s.

(** The pattern of [Py.rstrip] and [Py.rstrip_newline]: the characters that
    satisfy [p] are taken off the end. *)
Definition rdrop (p : ascii → bool) (s : string) : string :=
  String.rev (Py.drop_while p (String.rev s)).

(** ** The connection between a client and the server *)

(** The arguments of the calls of [sendall] on the socket [s], in the order
    of the log, and the characters the connection carries: one argument
    after the other.  A [str] is sent as it is: [encode] and the reader's
    decoding are inverse to each other. *)
Definition sent_to (s : socket) (log : list event) : list string :=
  omap (λ e, match e with
             | Sent s' data => if decide (s' = s) then Some data else None
             | _ => None
             end) log.

Definition carried (s : socket) (log : list event) : string :=
  foldr String.append "" (sent_to s log).

(** What the successive calls of [f.readline()] return on a reader made with
    [newline="\n"] from a connection that carries [data] and is then closed
    by the peer: a line ends behind each line terminator, and what is left
    at the end is a last line without one. *)
Fixpoint readlines (data : string) : list string :=
  match data with
  | EmptyString => []
  | String c r =>
      if Py.is_newline c then String c EmptyString :: readlines r
      else match readlines r with
           | [] => [String c EmptyString]
           | l :: ls => String c l :: ls
           end
  end.

Definition delivered (data : string) : list read := Got <$> readlines data.

(** ** [client.py] *)
Module Client.

(** What [input()] gives: the line the user typed, without its end, or an
    exception ([KeyboardInterrupt], [EOFError]). *)
Inductive keyboard :=
| Typed (user_input : string)
| Interrupted.

(** [main] from its [try:] on, as the events on the client's socket, with
    [Closed] for [sock.close()]; every [sendall] goes through.  A keyboard
    that is used up is at its end: [input()] raises [EOFError]. *)
Fixpoint main (sock : socket) (keys : list keyboard) : list event :=
  match keys with
  | [] | Interrupted :: _ => [Sent sock ("/quit" +:+ Py.newline); Closed sock]
  | Typed user_input :: rest =>
      Sent sock (user_input +:+ Py.newline)
      :: (if decide (Py.lower (Py.strip user_input) = "/quit")
          then [Closed sock]
          else main sock rest)
  end.

(** [recv_loop]: the arguments of its calls of [print], in order.  A stream
    that is used up is at its end; a failed read ends the loop silently. *)
Fixpoint recv_loop (stream : list read) : list string :=
  match stream with
  | [] => [Py.newline +:+ "[Disconnected from server]"]
  | Raised :: _ => []
  | Got line :: rest =>
      if decide (line = "")
      then [Py.newline +:+ "[Disconnected from server]"]
      else Py.rstrip_newline line :: recv_loop rest
  end.

End Client.

(** ** Running a worker *)

(** Membership of an event in a log that is written out. *)
Ltac in_log :=
  repeat first [apply list_elem_of_here | apply list_elem_of_further].

(** Bring a world built by [emit] and the setters to its three fields. *)
Ltac world_norm :=
  cbn; unfold emit, set_pairs, set_clients; cbn; rewrite <- ?app_assoc; cbn.

Ltac not_in_log H :=
  repeat (apply elem_of_cons in H as [H | H]; [congruence |]);
  by apply elem_of_nil in H.

Lemma exec_bind {A B} (p : prog A) (g : A → prog B) w :
  exec (p ≫= g) w = exec (g (exec p w).1) (exec p w).2.
Proof.
  revert w. induction p as [a | C l body k IH]; intros w; [done |].
  cbn. destruct (body w) as [b w']. apply IH.
Qed.

Lemma sections_bind {A B} (p : prog A) (g : A → prog B) w :
  sections (p ≫= g) w = sections p w + sections (g (exec p w).1) (exec p w).2.
Proof.
  revert w. induction p as [a | C l body k IH]; intros w; [done |].
  cbn. destruct (body w) as [b w']. rewrite IH. lia.
Qed.

(** A worker that is scheduled alone until it returns does what [exec]
    says. *)
Lemma run_alone (p : prog unit) w :
  ∃ n, (run (replicate n 0) (w, [p])).1 = (exec p w).2.
Proof.
  revert w. induction p as [a | C l body k IH]; intros w.
  - by exists 0.
  - destruct (body w) as [b w'] eqn:Hb. destruct (IH b w') as [n Hn].
    exists (S n). cbn. rewrite Hb. exact Hn.
Qed.

(** ** The Python string operations on examples *)

Example split1_chat : Py.split1 "/chat  bob smith " = ["/chat"; "bob smith "].
Proof. reflexivity. Qed.

Example split1_bare : Py.split1 "/chat   " = ["/chat"].
Proof. reflexivity. Qed.

Example strip_name : Py.strip "  alice " +:+ "|" = "alice|".
Proof. reflexivity. Qed.

Example lower_cmd : Py.lower "/ChAt" = "/chat".
Proof. reflexivity. Qed.

Example sorted_names :
  Py.sorted ["carol"; "Bob"; "alice"] = ["Bob"; "alice"; "carol"].
Proof. reflexivity. Qed.

Lemma rstrip_newline_empty : Py.rstrip_newline "" = "".
Proof. reflexivity. Qed.

Lemma startswith_slash_not_empty s : Py.startswith_slash s = true → s ≠ "".
Proof. by destruct s. Qed.

(** ** Teardown *)

Lemma cleanup_user_absent username w :
  clients w !! username = None → pairs w !! username = None →
  exec (cleanup_user username) w = (tt, w).
Proof.
  destruct w as [cl pr wi]; cbn. intros Hc Hp.
  unfold cleanup_user, cleanup_section; cbn.
  rewrite Hc, Hp; cbn. by rewrite !delete_id.
Qed.

Lemma cleanup_user_removes username w :
  clients (exec (cleanup_user username) w).2 !! username = None
  ∧ pairs (exec (cleanup_user username) w).2 !! username = None.
Proof.
  destruct w as [cl pr wi]. unfold cleanup_user, cleanup_section; cbn.
  destruct (pr !! username) as [p|] eqn:Hp; cbn.
  - case_decide as Hback; cbn.
    + destruct (delete username cl !! p) as [ps|]; cbn;
        destruct (cl !! username); cbn;
        rewrite lookup_delete_eq; (split; [done|]);
        rewrite lookup_delete; case_decide; try done; apply lookup_delete_eq.
    + destruct (cl !! username); cbn; by rewrite !lookup_delete_eq.
  - destruct (cl !! username); cbn; by rewrite !lookup_delete_eq.
Qed.

Lemma cleanup_user_one_section username w :
  sections (cleanup_user username) w = 1.
Proof.
  destruct w as [cl pr wi]. unfold cleanup_user, cleanup_section; cbn.
  destruct (pr !! username) as [p|]; cbn; [case_decide; cbn |];
    repeat match goal with
           | |- context [match ?o with Some _ => _ | None => _ end] =>
               destruct o; cbn
           end; done.
Qed.

Lemma register_one_section conn username w :
  sections (with_lock (register_section conn username)) w = 1.
Proof.
  unfold register_section; cbn. by destruct (clients w !! username).
Qed.

(** C8. Cleaning up the same user a second time is void: the call leaves
    the registry and the pairing table as the first call left them, writes
    to no socket and closes none; this holds for every user name and every
    state of the server. *)
Theorem cleanup_user_idempotent username w :
  let w1 := (exec (cleanup_user username) w).2 in
  exec (cleanup_user username) w1 = (tt, w1).
Proof.
  intros w1. destruct (cleanup_user_removes username w).
  by apply cleanup_user_absent.
Qed.

(** ** Registration *)

(** A fresh, non-empty name is registered under the connection, in one
    critical section. *)
Lemma register_fresh conn username w :
  clients w !! username = None →
  register_section conn username w
  = (true, set_clients (<[username := conn]> (clients w)) w).
Proof. intros H. unfold register_section. by rewrite H. Qed.

(** When the name is taken, the critical section itself changes neither
    map; it is the [finally:] block that runs [cleanup_user] on the name,
    which by then is the name of the holder. *)
Lemma register_taken conn username holder w :
  clients w !! username = Some holder →
  register_section conn username w
  = (false,
     emit (Sent conn ("[SERVER] Username already taken. Bye." +:+ Py.newline)) w).
Proof. intros H. unfold register_section. by rewrite H. Qed.

Lemma taken_name_runs_cleanup conn line rest holder w :
  Py.strip line ≠ "" →
  clients w !! Py.strip line = Some holder →
  let w' := (exec (handle_client conn (Got line :: rest)) w).2 in
  clients w' = delete (Py.strip line) (clients w)
  ∧ pairs w' !! Py.strip line = None
  ∧ ∃ new, wire w' = wire w ++ new
           ∧ Closed holder ∈ new
           ∧ (holder ≠ conn → Closed conn ∉ new).
Proof.
  cbv zeta. unfold handle_client. generalize (Py.strip line) as name.
  intros name Hne Hin. destruct w as [cl pr wi]; cbn in Hin.
  cbn. rewrite decide_False by done; cbn.
  unfold register_section, emit; cbn. rewrite Hin; cbn.
  rewrite decide_False by done.
  unfold cleanup_user, cleanup_section; cbn. rewrite Hin.
  destruct (pr !! name) as [p|] eqn:Hp; cbn;
    [case_decide; cbn; [destruct (delete name cl !! p); cbn |] |];
    (split; [done |]);
    (split; [first [apply lookup_delete_eq
                   | rewrite delete_delete; apply lookup_delete_eq] |]);
    rewrite <- ?app_assoc;
    (eexists; split; [reflexivity |]);
    (split; [in_log |]);
    intros Hne' Hc; not_in_log Hc.
Qed.

(** C1. A name that is taken: connection 3 gives the name alice while
    alice (connection 1) chats with bob (connection 2).  Connection 3 is
    told that the name is taken, and then alice is removed from the
    registry, her pairing with bob is dissolved, bob is told that she has
    disconnected, and her connection is closed; connection 3 itself is not
    closed. *)
Theorem taken_name_evicts_holder :
  exec (handle_client 3 [typed "alice"]) alice_and_bob
  = (tt,
     World {[ "bob" := 2 ]} ∅
       [ Sent 3 ("[SERVER] Welcome! Enter your username:" +:+ Py.newline);
         Sent 3 ("[SERVER] Username already taken. Bye." +:+ Py.newline);
         Sent 2 ("[SERVER] alice disconnected. Chat closed." +:+ Py.newline);
         Closed 1;
         ReaderClosed 3 ]).
Proof. vm_compute. reflexivity. Qed.

(** ** Interleaving *)

(** C2. The pairing transition of [/chat] is not one critical section.
    With alice paired to bob, her [/chat carol] enters the lock six times
    and her [/leave] three times.  When alice and dave both type
    [/chat carol], the schedule [racing] lets either of them read carol's
    partner before the other one pairs: both are told that their chat has
    started, and the pairing table that results is the one of neither order
    in which the two commands could have run one after the other. *)
Theorem chat_transition_is_interruptible :
  let paired :=
    World {[ "alice" := 1; "bob" := 2; "carol" := 3 ]}
          {[ "alice" := "bob"; "bob" := "alice" ]} [] in
  let raced := (run racing (boot, workers three_clients)).1 in
  let serial1 := (run alice_first (boot, workers three_clients)).1 in
  let serial2 := (run dave_first (boot, workers three_clients)).1 in
  sections (loop_body 1 "alice" "/chat carol") paired = 6
  ∧ sections (loop_body 1 "alice" "/leave") paired = 3
  ∧ pairs raced
    = {[ "alice" := "carol"; "carol" := "dave"; "dave" := "carol" ]}
  ∧ Sent 1 ("[SERVER] Chat started with carol." +:+ Py.newline) ∈ wire raced
  ∧ Sent 2 ("[SERVER] Chat started with carol." +:+ Py.newline) ∈ wire raced
  ∧ pairs serial1 = {[ "alice" := "carol"; "carol" := "alice" ]}
  ∧ pairs serial2 = {[ "dave" := "carol"; "carol" := "dave" ]}
  ∧ pairs raced ≠ pairs serial1
  ∧ pairs raced ≠ pairs serial2.
Proof.
  cbv zeta. repeat split; try (vm_compute; reflexivity);
    try (apply list_elem_of_In; vm_compute; tauto).
  - intros H. apply (f_equal (λ m, m !! "dave")) in H.
    vm_compute in H. discriminate H.
  - intros H. apply (f_equal (λ m, m !! "alice")) in H.
    vm_compute in H. discriminate H.
Qed.

(** C3. Pairing symmetry does not hold in every world the server can
    reach: after [racing], alice's partner is carol, carol is registered,
    and carol's partner is dave. *)
Theorem reachable_world_not_symmetric :
  ∃ w, reachable w
       ∧ pairs w !! "alice" = Some "carol"
       ∧ pairs w !! "carol" = Some "dave"
       ∧ clients w !! "carol" = Some 3
       ∧ ¬ pairing_symmetric w.
Proof.
  exists (run racing (boot, workers three_clients)).1.
  assert (Ha : pairs (run racing (boot, workers three_clients)).1 !! "alice"
               = Some "carol") by (vm_compute; reflexivity).
  assert (Hc : pairs (run racing (boot, workers three_clients)).1 !! "carol"
               = Some "dave") by (vm_compute; reflexivity).
  assert (Hr : clients (run racing (boot, workers three_clients)).1 !! "carol"
               = Some 3) by (vm_compute; reflexivity).
  split; [exists three_clients, racing; reflexivity |].
  split; [exact Ha |]. split; [exact Hc |]. split; [exact Hr |].
  intros Hsym. destruct (Hsym "alice" "carol" Ha) as [H | H].
  - rewrite Hc in H. discriminate H.
  - discriminate (eq_trans (eq_sym H) Hr).
Qed.

(** ** The dispatcher *)

Lemma reads_as_not_blank line cmd args :
  reads_as line cmd args → line ≠ "" ∧ Py.rstrip_newline line ≠ "".
Proof.
  intros [Hs _]. split; [| by apply startswith_slash_not_empty].
  intros ->. discriminate Hs.
Qed.

(** A command line goes to the branch of its command. *)
Lemma loop_body_command conn username line cmd args :
  reads_as line cmd args →
  loop_body conn username line =
    if decide (cmd = "/users") then do_users conn username
    else if decide (cmd = "/chat") then do_chat conn username args
    else if decide (cmd = "/leave") then do_leave conn username
    else if decide (cmd = "/quit")
         then send_line conn "[SERVER] Bye.";; mret Break
    else send_line conn "[SERVER] Unknown command.";; mret Continue.
Proof.
  intros Hr. destruct (reads_as_not_blank _ _ _ Hr) as [Hl Hm].
  destruct Hr as [Hs (word & Hw & <-)]. unfold loop_body.
  rewrite (decide_False (P := line = "")) by done.
  rewrite (decide_False (P := Py.rstrip_newline line = "")) by done.
  by rewrite Hs, Hw.
Qed.

(** A line that is not empty and has no slash in front is a message. *)
Lemma loop_body_message conn username line :
  Py.rstrip_newline line ≠ "" →
  Py.startswith_slash (Py.rstrip_newline line) = false →
  loop_body conn username line
  = do_message conn username (Py.rstrip_newline line).
Proof.
  intros Hm Hs. unfold loop_body.
  rewrite (decide_False (P := line = "")) by (by intros ->).
  rewrite (decide_False (P := Py.rstrip_newline line = "")) by done.
  by rewrite Hs.
Qed.

Lemma whitespace_only_no_slash s :
  whitespace_only s = true → Py.startswith_slash s = false.
Proof.
  destruct s as [| c r]; [done |]. cbn [whitespace_only Py.startswith_slash].
  intros [Hc _]%andb_prop. destruct (nat_of_ascii c =? 47) eqn:E; [| done].
  apply Nat.eqb_eq in E. unfold Py.isspace in Hc. rewrite E in Hc.
  discriminate Hc.
Qed.

(** What [do_message] does, by the state of the sender's pairing. *)
Lemma do_message_unpaired conn username msg w :
  truthy (pairs w !! username) = false →
  exec (do_message conn username msg) w
  = (Continue,
     emit (Sent conn
       ("[SERVER] You're not in a chat. Use /users then /chat <username>."
        +:+ Py.newline)) w).
Proof.
  intros Ht. unfold do_message; cbn.
  destruct (pairs w !! username) as [p|]; [| done]. by rewrite Ht.
Qed.

Lemma do_message_dangling conn username msg p w :
  pairs w !! username = Some p → p ≠ "" → clients w !! p = None →
  exec (do_message conn username msg) w
  = (Continue,
     emit (Sent conn ("[SERVER] Partner disconnected. Chat closed." +:+ Py.newline))
       (set_pairs (delete username (pairs w)) w)).
Proof.
  intros Hp Hne Hc. unfold do_message; cbn. rewrite Hp; cbn.
  rewrite decide_False by done; cbn. by rewrite Hc.
Qed.

Lemma do_message_forward conn username msg p psock w :
  pairs w !! username = Some p → p ≠ "" → clients w !! p = Some psock →
  exec (do_message conn username msg) w
  = (Continue,
     emit (Sent psock ((username +:+ ": " +:+ msg) +:+ Py.newline)) w).
Proof.
  intros Hp Hne Hc. unfold do_message; cbn. rewrite Hp; cbn.
  rewrite decide_False by done; cbn. by rewrite Hc.
Qed.

(** C7. Routing of a line that is not empty and not a command.  A sender
    without an entry in the pairing table is told that there is no chat, and
    nothing else is written; when the partner is not in the registry, the
    sender's entry is removed and the sender is told that the partner has
    disconnected; otherwise the partner's connection receives the sender's
    name, a colon, a space and the message. *)
Theorem message_routing conn username line w :
  Py.rstrip_newline line ≠ "" →
  Py.startswith_slash (Py.rstrip_newline line) = false →
  (pairs w !! username = None →
   exec (loop_body conn username line) w
   = (Continue,
      emit (Sent conn
        ("[SERVER] You're not in a chat. Use /users then /chat <username>."
         +:+ Py.newline)) w))
  ∧ (∀ p, pairs w !! username = Some p → p ≠ "" → clients w !! p = None →
     exec (loop_body conn username line) w
     = (Continue,
        World (clients w) (delete username (pairs w))
          (wire w ++
           [Sent conn ("[SERVER] Partner disconnected. Chat closed."
                       +:+ Py.newline)])))
  ∧ (∀ p psock,
     pairs w !! username = Some p → p ≠ "" → clients w !! p = Some psock →
     exec (loop_body conn username line) w
     = (Continue,
        World (clients w) (pairs w)
          (wire w ++
           [Sent psock ((username +:+ ": " +:+ Py.rstrip_newline line)
                        +:+ Py.newline)]))).
Proof.
  intros Hm Hs. rewrite loop_body_message by done. repeat split.
  - intros Hp. apply do_message_unpaired. by rewrite Hp.
  - intros p Hp Hne Hc. by rewrite (do_message_dangling _ _ _ p).
  - intros p psock Hp Hne Hc. by rewrite (do_message_forward _ _ _ p psock).
Qed.

Lemma message_routing_witness :
  exec (loop_body 1 "alice" (String.append "hello" Py.newline)) alice_and_bob
  = (Continue,
     World (clients alice_and_bob) (pairs alice_and_bob)
       [Sent 2 (String.append "alice: hello" Py.newline)]).
Proof.
  refine (proj2 (proj2 (message_routing 1 "alice"
            (String.append "hello" Py.newline) alice_and_bob _ _))
          "bob" 2 _ _ _);
    try reflexivity; discriminate.
Defined.

(** Every branch of the loop body after the test for the empty line
    writes at least one line. *)
Lemma split1_slash s : Py.startswith_slash s = true → Py.split1 s ≠ [].
Proof.
  destruct s as [| c r]; [done |]. cbn [Py.startswith_slash].
  intros E%Nat.eqb_eq. unfold Py.split1, Py.lstrip.
  assert (Hc : Py.isspace c = false) by (unfold Py.isspace; by rewrite E).
  cbn [Py.drop_while]. rewrite Hc.
  by destruct (Py.drop_while Py.isspace _).
Qed.

Ltac answered :=
  repeat first
    [ progress cbn
    | case_decide
    | case_bool_decide
    | match goal with
      | |- context [match ?m !! ?k with _ => _ end] => destruct (m !! k) eqn:?
      | |- context [match Py.sorted ?l with _ => _ end] => destruct (Py.sorted l)
      end ];
  unfold emit, set_pairs, set_clients, unpair_section; cbn;
  repeat case_decide; cbn;
  rewrite ?length_app; cbn; lia.

Lemma do_message_answers conn username msg w :
  length (wire w) < length (wire (exec (do_message conn username msg) w).2).
Proof. destruct w as [cl pr wi]. unfold do_message. answered. Qed.

Lemma do_leave_answers conn username w :
  length (wire w) < length (wire (exec (do_leave conn username) w).2).
Proof. destruct w as [cl pr wi]. unfold do_leave. answered. Qed.

Lemma do_users_answers conn username w :
  length (wire w) < length (wire (exec (do_users conn username) w).2).
Proof. destruct w as [cl pr wi]. unfold do_users. answered. Qed.

Lemma do_chat_answers conn username args w :
  length (wire w) < length (wire (exec (do_chat conn username args) w).2).
Proof.
  destruct w as [cl pr wi]. unfold do_chat, chat_install.
  destruct args as [| arg more]; [answered |].
  generalize (Py.strip arg) as target. intros target. answered.
Qed.

Lemma loop_body_answers conn username line w :
  Py.rstrip_newline line ≠ "" →
  length (wire w) < length (wire (exec (loop_body conn username line) w).2).
Proof.
  intros Hm.
  destruct (Py.startswith_slash (Py.rstrip_newline line)) eqn:Hs.
  - destruct (Py.split1 (Py.rstrip_newline line)) as [| word args] eqn:Hw;
      [by apply split1_slash in Hs |].
    rewrite (loop_body_command _ _ _ (Py.lower word) args)
      by (split; [done | by exists word]).
    repeat case_decide;
      auto using do_users_answers, do_chat_answers, do_leave_answers;
      destruct w; cbn; rewrite length_app; cbn; lia.
  - rewrite loop_body_message by done. apply do_message_answers.
Qed.

(** C10. Only the empty line is skipped.  A line that is empty once its
    line terminator is taken off gets no answer and changes nothing, and
    every other line is answered by at least one written line.  A line of
    whitespace alone, such as a single space, is a message: it goes to the
    partner's connection behind the sender's name when the sender is
    paired, and is answered with the notice that there is no chat when the
    sender is not. *)
Theorem whitespace_line_is_a_message conn username line w :
  (line ≠ "" → Py.rstrip_newline line = "" →
   exec (loop_body conn username line) w = (Continue, w))
  ∧ (Py.rstrip_newline line ≠ "" →
     length (wire w)
     < length (wire (exec (loop_body conn username line) w).2))
  ∧ (Py.rstrip_newline line ≠ "" →
     whitespace_only (Py.rstrip_newline line) = true →
     (pairs w !! username = None →
      exec (loop_body conn username line) w
      = (Continue,
         emit (Sent conn
           ("[SERVER] You're not in a chat. Use /users then /chat <username>."
            +:+ Py.newline)) w))
     ∧ (∀ p psock,
        pairs w !! username = Some p → p ≠ "" → clients w !! p = Some psock →
        exec (loop_body conn username line) w
        = (Continue,
           World (clients w) (pairs w)
             (wire w ++
              [Sent psock ((username +:+ ": " +:+ Py.rstrip_newline line)
                           +:+ Py.newline)])))).
Proof.
  split; [| split].
  - intros Hl Hm. unfold loop_body.
    rewrite (decide_False (P := line = "")) by done.
    by rewrite (decide_True (P := Py.rstrip_newline line = "")).
  - apply loop_body_answers.
  - intros Hm Hws.
    destruct (message_routing conn username line w Hm
                (whitespace_only_no_slash _ Hws)) as (H1 & _ & H3).
    by split.
Qed.

Lemma whitespace_line_is_a_message_witness :
  exec (loop_body 1 "alice" Py.newline) alice_and_bob
  = (Continue, alice_and_bob)
  ∧ exec (loop_body 1 "alice" (String.append " " Py.newline)) alice_and_bob
    = (Continue,
       World (clients alice_and_bob) (pairs alice_and_bob)
         [Sent 2 (String.append "alice:  " Py.newline)])
  ∧ exec (loop_body 3 "carol" (String.append " " Py.newline)) alice_and_bob
    = (Continue,
       emit (Sent 3
         (String.append
            "[SERVER] You're not in a chat. Use /users then /chat <username>."
            Py.newline)) alice_and_bob)
  ∧ length (wire alice_and_bob)
    < length (wire (exec (loop_body 3 "carol"
                            (String.append " " Py.newline)) alice_and_bob).2).
Proof.
  split; [| split; [| split]].
  - refine (proj1 (whitespace_line_is_a_message 1 "alice" Py.newline
                     alice_and_bob) _ _); [discriminate | reflexivity].
  - refine (proj2 (proj2 (proj2 (whitespace_line_is_a_message 1 "alice"
                     (String.append " " Py.newline) alice_and_bob)) _ _)
              "bob" 2 _ _ _); try reflexivity; discriminate.
  - refine (proj1 (proj2 (proj2 (whitespace_line_is_a_message 3 "carol"
                     (String.append " " Py.newline) alice_and_bob)) _ _) _);
      try reflexivity; discriminate.
  - refine (proj1 (proj2 (whitespace_line_is_a_message 3 "carol"
                     (String.append " " Py.newline) alice_and_bob)) _).
    discriminate.
Defined.

(** ** Listing the users *)

Lemma elem_of_other_users except_name w x :
  x ∈ other_users except_name w ↔ is_Some (clients w !! x) ∧ x ≠ except_name.
Proof.
  unfold other_users. rewrite list_elem_of_filter, list_elem_of_fmap. split.
  - intros [Hne ([k v] & -> & Hin)]. apply elem_of_map_to_list in Hin. eauto.
  - intros [[v Hv] Hne]. split; [done |]. exists (x, v). split; [done |].
    by apply elem_of_map_to_list.
Qed.

Lemma elem_of_sorted l x : x ∈ Py.sorted l ↔ x ∈ l.
Proof. unfold Py.sorted. by rewrite merge_sort_Permutation. Qed.

Lemma NoDup_other_users except_name w : NoDup (other_users except_name w).
Proof. apply NoDup_filter, NoDup_fst_map_to_list. Qed.

(** ** Leaving the main loop *)

Lemma string_length_app (a b : string) :
  String.length (a +:+ b) = String.length a + String.length b.
Proof.
  induction a as [| c a IH]; [done |].
  change (S (String.length (a +:+ b)) = S (String.length a + String.length b)).
  by rewrite IH.
Qed.

Lemma notice_disconnected_not_bye a b username :
  Sent a (("[SERVER] " +:+ username +:+ " disconnected. Chat closed.")
          +:+ Py.newline)
  ≠ Sent b ("[SERVER] Bye." +:+ Py.newline).
Proof.
  intros H.
  apply (f_equal (λ e, match e with
                       | Sent _ d => String.length d
                       | _ => 0
                       end)) in H.
  cbn beta iota in H. rewrite !string_length_app in H. cbn in H. lia.
Qed.

Lemma exec_main_loop_leaves conn username stream said w :
  leaves conn stream said →
  exec (main_loop conn username stream) w
  = (tt, World (clients w) (pairs w) (wire w ++ said)).
Proof.
  destruct w as [cl pr wi].
  intros [line args rest Hq | rest | | rest]; cbn;
    rewrite ?app_nil_r; try done.
  rewrite exec_bind, (loop_body_command _ _ _ _ _ Hq).
  by repeat (rewrite decide_False by done).
Qed.

Lemma exec_cleanup_user_paired username partner psock w :
  username ≠ partner →
  clients w !! partner = Some psock →
  pairs w !! username = Some partner →
  pairs w !! partner = Some username →
  exec (cleanup_user username) w
  = (tt,
     World (delete username (clients w))
       (delete partner (delete username (pairs w)))
       (wire w
        ++ Sent psock
             (("[SERVER] " +:+ username +:+ " disconnected. Chat closed.")
              +:+ Py.newline)
           :: match clients w !! username with
              | Some s => [Closed s]
              | None => []
              end)).
Proof.
  destruct w as [cl pr wi]; cbn. intros Hne Hps Hu Hp.
  unfold cleanup_user, cleanup_section; cbn. rewrite Hu; cbn.
  rewrite decide_True by (by rewrite lookup_delete_ne); cbn.
  rewrite lookup_delete_ne, Hps by done; cbn.
  destruct (cl !! username); cbn; unfold emit, set_pairs, set_clients; cbn;
    by rewrite <- ?app_assoc.
Qed.

Lemma exec_session_paired conn username partner psock stream said w :
  leaves conn stream said →
  username ≠ "" →
  username ≠ partner →
  clients w !! username = Some conn →
  clients w !! partner = Some psock →
  pairs w !! username = Some partner →
  pairs w !! partner = Some username →
  exec (session conn username stream) w
  = (tt,
     World (delete username (clients w))
       (delete partner (delete username (pairs w)))
       (wire w ++ said
        ++ [ Sent psock
               (("[SERVER] " +:+ username +:+ " disconnected. Chat closed.")
                +:+ Py.newline);
             Closed conn; ReaderClosed conn ])).
Proof.
  intros Hl Hne Hup Hc Hps Hu Hp. unfold session, finally.
  rewrite !exec_bind, (exec_main_loop_leaves _ _ _ _ _ Hl); cbn [fst snd].
  unfold truthy. rewrite decide_False by done.
  rewrite (exec_cleanup_user_paired _ partner psock) by done.
  cbn. rewrite Hc. unfold emit; cbn. by rewrite <- !app_assoc.
Qed.

(** C4. Teardown of a session with a mutual pairing.  However the session
    leaves its main loop (a [/quit] line, the end of the stream, a failed
    read), the user is removed from the registry and both entries of the
    pairing are removed, so that the former partner has no partner; the
    former partner's connection is written the notice of disconnection
    once; and the user is in no list of users made from then on. *)
Theorem teardown_cleanup conn username partner psock stream said w :
  leaves conn stream said →
  username ≠ "" →
  username ≠ partner →
  clients w !! username = Some conn →
  clients w !! partner = Some psock →
  pairs w !! username = Some partner →
  pairs w !! partner = Some username →
  let w' := (exec (session conn username stream) w).2 in
  let notice :=
    Sent psock
      (("[SERVER] " +:+ username +:+ " disconnected. Chat closed.")
       +:+ Py.newline) in
  clients w' = delete username (clients w)
  ∧ pairs w' = delete partner (delete username (pairs w))
  ∧ (exec (get_partner partner) w').1 = None
  ∧ wire w' = wire w ++ said ++ [notice; Closed conn; ReaderClosed conn]
  ∧ length (filter (λ e, e = notice)
              (said ++ [notice; Closed conn; ReaderClosed conn])) = 1
  ∧ ∀ requester, username ∉ (exec (list_users requester) w').1.
Proof.
  intros Hl Hne Hup Hc Hps Hu Hp. cbv zeta.
  rewrite (exec_session_paired _ _ partner psock _ said) by done. cbn.
  split; [done |]. split; [done |]. split; [apply lookup_delete_eq |].
  split; [done |]. split.
  - rewrite filter_app, length_app.
    assert (length (filter
              (λ e, e = Sent psock
                 (("[SERVER] " +:+ username +:+ " disconnected. Chat closed.")
                  +:+ Py.newline)) said) = 0) as ->.
    { destruct Hl; [| done ..]. rewrite filter_cons_False; [done |].
      intros E. symmetry in E. by apply notice_disconnected_not_bye in E. }
    rewrite filter_cons_True by done.
    by rewrite filter_cons_False, filter_cons_False.
  - intros requester Hin. apply elem_of_sorted, elem_of_other_users in Hin.
    destruct Hin as [[v Hv] _]. cbn in Hv. by rewrite lookup_delete_eq in Hv.
Qed.

Lemma teardown_cleanup_witness :
  let w' := (exec (session 1 "alice" [typed "/quit"]) alice_and_bob).2 in
  clients w' = delete "alice" (clients alice_and_bob)
  ∧ (exec (get_partner "bob") w').1 = None
  ∧ wire w'
    = [ Sent 1 (String.append "[SERVER] Bye." Py.newline);
        Sent 2 (String.append "[SERVER] alice disconnected. Chat closed."
                  Py.newline);
        Closed 1; ReaderClosed 1 ].
Proof.
  assert (Hq : leaves 1 [typed "/quit"]
                 [Sent 1 (String.append "[SERVER] Bye." Py.newline)]).
  { apply (leaves_quit 1 _ []). split; [reflexivity |].
    exists "/quit". split; reflexivity. }
  destruct (teardown_cleanup 1 "alice" "bob" 2 _ _ alice_and_bob Hq)
    as (H1 & _ & H3 & H4 & _); try reflexivity; try discriminate.
  cbv zeta. split; [exact H1 |]. split; [exact H3 |]. exact H4.
Defined.

(** C9. The reply to [/users].  The names listed are those of the registry
    other than the requester's, each once, in increasing order of their
    code points; they are joined by a comma and a space, and when there is
    none the reply says so; nothing but the reply is written and neither
    map changes. *)
Theorem users_reply conn username line args w :
  reads_as line "/users" args →
  let users := (exec (list_users username) w).1 in
  (∀ x, x ∈ users ↔ is_Some (clients w !! x) ∧ x ≠ username)
  ∧ NoDup users
  ∧ StronglySorted String.le users
  ∧ exec (loop_body conn username line) w
    = (Continue,
       World (clients w) (pairs w)
         (wire w ++
          [Sent conn
             (match users with
              | [] => "[SERVER] No other users online."
              | _ => "[SERVER] Online: " +:+ Py.join ", " users
              end +:+ Py.newline)])).
Proof.
  intros Hr. cbn.
  split; [intros x; by rewrite elem_of_sorted, elem_of_other_users |].
  split.
  { unfold Py.sorted. rewrite merge_sort_Permutation.
    apply NoDup_other_users. }
  split; [apply (StronglySorted_merge_sort _) |].
  rewrite (loop_body_command _ _ _ _ _ Hr).
  rewrite decide_True by done. unfold do_users; cbn.
  by destruct (Py.sorted (other_users username w)).
Qed.

Lemma users_reply_witness :
  exec (loop_body 1 "alice" (String.append "/users" Py.newline))
    (World {[ "alice" := 1; "dave" := 4; "bob" := 2 ]} ∅ [])
  = (Continue,
     World {[ "alice" := 1; "dave" := 4; "bob" := 2 ]} ∅
       [Sent 1 (String.append "[SERVER] Online: bob, dave" Py.newline)]).
Proof.
  refine (proj2 (proj2 (proj2
    (users_reply 1 "alice" (String.append "/users" Py.newline) []
       (World {[ "alice" := 1; "dave" := 4; "bob" := 2 ]} ∅ []) _)))).
  split; [reflexivity |]. exists "/users". split; reflexivity.
Defined.

(** ** [/chat] *)

(** The test on the target's partner, and pairing, from a world [w]. *)
Lemma exec_chat_install_refused conn username target tsock tp w :
  pairs w !! target = Some tp → tp ≠ "" → tp ≠ username →
  exec (chat_install conn username target tsock) w
  = (Continue,
     World (clients w) (pairs w)
       (wire w ++
        [Sent conn
           (("[SERVER] '" +:+ target +:+ "' is already chatting with '"
             +:+ tp +:+ "'.") +:+ Py.newline)])).
Proof.
  intros Ht Hne Hnu. unfold chat_install; cbn. rewrite Ht; cbn.
  rewrite decide_False by done. by rewrite bool_decide_true.
Qed.

Lemma exec_chat_install_started conn username target tsock w :
  (∀ tp, pairs w !! target = Some tp → tp = "" ∨ tp = username) →
  exec (chat_install conn username target tsock) w
  = (Continue,
     World (clients w)
       (<[target := username]> (<[username := target]> (pairs w)))
       (wire w ++
        [ Sent conn
            (("[SERVER] Chat started with " +:+ target +:+ ".")
             +:+ Py.newline);
          Sent tsock
            (("[SERVER] " +:+ username
              +:+ " started a chat with you. You are now connected.")
             +:+ Py.newline) ])).
Proof.
  intros Hfree. unfold chat_install; cbn.
  destruct (pairs w !! target) as [tp |] eqn:Ht; cbn.
  - destruct (Hfree tp eq_refl) as [-> | ->].
    + rewrite decide_True by done. by world_norm.
    + rewrite bool_decide_false by naive_solver. rewrite andb_false_r.
      by world_norm.
  - by world_norm.
Qed.

(** [/chat] with a target that passes the three tests, for a sender
    without a partner. *)
Lemma exec_do_chat_unpaired conn username arg more tsock w :
  Py.strip arg ≠ "" → Py.strip arg ≠ username →
  clients w !! Py.strip arg = Some tsock →
  truthy (pairs w !! username) = false →
  exec (do_chat conn username (arg :: more)) w
  = exec (chat_install conn username (Py.strip arg) tsock) w.
Proof.
  intros Hne Hnu Hc Hp. unfold do_chat.
  rewrite !decide_False by done. rewrite exec_bind; cbn [exec get_socket with_lock].
  rewrite Hc; cbn [fst snd]. rewrite exec_bind.
  rewrite exec_bind; cbn [exec get_partner with_lock fst snd].
  destruct (pairs w !! username) as [old |]; [rewrite Hp |]; by destruct w.
Qed.

(** C6. A sender without a partner asks for a target that is paired with
    a third user.  The sender is told that the target is already chatting
    with that user, nothing else is written, and the registry and the
    pairing table are as before: the target and its partner are still
    paired with each other and the sender has no partner. *)
Theorem chat_busy_target_refused conn sender line arg more tsock partner w :
  reads_as line "/chat" (arg :: more) →
  Py.strip arg ≠ "" →
  Py.strip arg ≠ sender →
  clients w !! Py.strip arg = Some tsock →
  pairs w !! sender = None →
  pairs w !! Py.strip arg = Some partner →
  pairs w !! partner = Some (Py.strip arg) →
  partner ≠ "" →
  partner ≠ sender →
  let target := Py.strip arg in
  let w' := (exec (loop_body conn sender line) w).2 in
  exec (loop_body conn sender line) w
  = (Continue,
     World (clients w) (pairs w)
       (wire w ++
        [Sent conn
           (("[SERVER] '" +:+ target +:+ "' is already chatting with '"
             +:+ partner +:+ "'.") +:+ Py.newline)]))
  ∧ pairs w' !! target = Some partner
  ∧ pairs w' !! partner = Some target
  ∧ pairs w' !! sender = None.
Proof.
  intros Hr Hne Hns Hc Hs Ht Hp Hpe Hps. cbv zeta.
  rewrite (loop_body_command _ _ _ _ _ Hr).
  rewrite decide_False, decide_True by done.
  rewrite (exec_do_chat_unpaired _ _ _ _ tsock) by (by rewrite ?Hs).
  by rewrite (exec_chat_install_refused _ _ _ _ partner).
Qed.

Lemma chat_busy_target_refused_witness :
  exec (loop_body 3 "carol" (String.append "/chat bob" Py.newline))
    (World {[ "alice" := 1; "bob" := 2; "carol" := 3 ]}
           {[ "alice" := "bob"; "bob" := "alice" ]} [])
  = (Continue,
     World {[ "alice" := 1; "bob" := 2; "carol" := 3 ]}
           {[ "alice" := "bob"; "bob" := "alice" ]}
       [Sent 3 (String.append "[SERVER] 'bob' is already chatting with 'alice'."
                  Py.newline)]).
Proof.
  refine (proj1 (chat_busy_target_refused 3 "carol"
            (String.append "/chat bob" Py.newline) "bob" [] 2 "alice"
            (World {[ "alice" := 1; "bob" := 2; "carol" := 3 ]}
                   {[ "alice" := "bob"; "bob" := "alice" ]} [])
            _ _ _ _ _ _ _ _ _));
    try reflexivity; try discriminate.
  split; [reflexivity |]. exists "/chat". split; reflexivity.
Defined.

(** [/chat] with a target that passes the three tests, for a sender with a
    partner: the pairing is broken and both sides are told, and then the
    target's partner is looked up in the table that results. *)
Lemma exec_do_chat_paired conn username arg more tsock old w :
  Py.strip arg ≠ "" → Py.strip arg ≠ username →
  clients w !! Py.strip arg = Some tsock →
  pairs w !! username = Some old → old ≠ "" →
  exec (do_chat conn username (arg :: more)) w
  = exec (chat_install conn username (Py.strip arg) tsock)
      (World (clients w)
         (delete username
            (if decide (pairs w !! old = Some username)
             then delete old (pairs w) else pairs w))
         (wire w
          ++ match clients w !! old with
             | Some osock =>
                 [Sent osock (("[SERVER] " +:+ username +:+ " left the chat.")
                              +:+ Py.newline)]
             | None => []
             end
          ++ [Sent conn (("[SERVER] Left previous chat with " +:+ old +:+ ".")
                         +:+ Py.newline)])).
Proof.
  intros Hne Hnu Hc Hp Ho. unfold do_chat.
  rewrite !decide_False by done. destruct w as [cl pr wi]; cbn in *.
  rewrite Hc; cbn. rewrite Hp; cbn. rewrite (decide_False (P := old = "")) by done.
  unfold unpair_section; cbn.
  destruct (decide (pr !! old = Some username)); cbn;
    destruct (cl !! old); world_norm; by rewrite ?app_nil_r.
Qed.

(** C5. The order of the steps of [/chat].  A sender with a partner asks
    for a target that is not blank, is not the sender and is registered.
    The sender's entry is removed, and the old partner's entry when it
    pointed back; the old partner is told that the sender has left and the
    sender that the previous chat is over.  The target's partner is looked
    up only in the table that results: when the target is then refused as
    busy, that table is the final one and the sender has no partner in it;
    otherwise the sender and the target are paired. *)
Theorem chat_dissolves_before_busy_check
    conn username line arg more tsock old osock w :
  reads_as line "/chat" (arg :: more) →
  Py.strip arg ≠ "" →
  Py.strip arg ≠ username →
  clients w !! Py.strip arg = Some tsock →
  pairs w !! username = Some old →
  old ≠ "" →
  clients w !! old = Some osock →
  let target := Py.strip arg in
  let unpaired :=
    delete username
      (if decide (pairs w !! old = Some username)
       then delete old (pairs w) else pairs w) in
  let left :=
    [ Sent osock (("[SERVER] " +:+ username +:+ " left the chat.")
                  +:+ Py.newline);
      Sent conn (("[SERVER] Left previous chat with " +:+ old +:+ ".")
                 +:+ Py.newline) ] in
  let w' := (exec (loop_body conn username line) w).2 in
  unpaired !! username = None
  ∧ (pairs w !! old = Some username → unpaired !! old = None)
  ∧ (∀ tp, unpaired !! target = Some tp → tp ≠ "" → tp ≠ username →
     w' = World (clients w) unpaired
            (wire w ++ left ++
             [Sent conn
                (("[SERVER] '" +:+ target +:+ "' is already chatting with '"
                  +:+ tp +:+ "'.") +:+ Py.newline)])
     ∧ pairs w' !! username = None)
  ∧ ((∀ tp, unpaired !! target = Some tp → tp = "" ∨ tp = username) →
     w' = World (clients w)
            (<[target := username]> (<[username := target]> unpaired))
            (wire w ++ left ++
             [ Sent conn
                 (("[SERVER] Chat started with " +:+ target +:+ ".")
                  +:+ Py.newline);
               Sent tsock
                 (("[SERVER] " +:+ username
                   +:+ " started a chat with you. You are now connected.")
                  +:+ Py.newline) ])).
Proof.
  intros Hr Hne Hnu Hc Hp Ho Hoc. cbv zeta.
  rewrite (loop_body_command _ _ _ _ _ Hr).
  rewrite (decide_False (P := "/chat" = "/users")) by done.
  rewrite (decide_True (P := "/chat" = "/chat")) by done.
  rewrite (exec_do_chat_paired _ _ _ _ tsock old) by done. rewrite Hoc.
  split; [apply lookup_delete_eq |]. split.
  { intros Hback. rewrite decide_True by done.
    destruct (decide (username = old)) as [-> | Hd];
      [apply lookup_delete_eq |].
    rewrite lookup_delete_ne by done. apply lookup_delete_eq. }
  split.
  - intros tp Ht Htp Htu.
    rewrite (exec_chat_install_refused _ _ _ _ tp) by done. cbn.
    rewrite <- !app_assoc. split; [done |]. apply lookup_delete_eq.
  - intros Hfree. rewrite exec_chat_install_started by done. cbn.
    by rewrite <- !app_assoc.
Qed.

Lemma chat_dissolves_before_busy_check_witness :
  let w :=
    World {[ "alice" := 1; "bob" := 2; "carol" := 3; "dave" := 4 ]}
          {[ "alice" := "bob"; "bob" := "alice";
             "carol" := "dave"; "dave" := "carol" ]} [] in
  let w' :=
    (exec (loop_body 1 "alice" (String.append "/chat carol" Py.newline)) w).2 in
  w' = World {[ "alice" := 1; "bob" := 2; "carol" := 3; "dave" := 4 ]}
             {[ "carol" := "dave"; "dave" := "carol" ]}
         [ Sent 2 (String.append "[SERVER] alice left the chat." Py.newline);
           Sent 1 (String.append "[SERVER] Left previous chat with bob."
                     Py.newline);
           Sent 1 (String.append
                     "[SERVER] 'carol' is already chatting with 'dave'."
                     Py.newline) ]
  ∧ pairs w' !! "alice" = None.
Proof.
  cbv zeta.
  assert (Hr : reads_as (String.append "/chat carol" Py.newline) "/chat"
                 ["carol"]).
  { split; [reflexivity |]. exists "/chat". split; reflexivity. }
  destruct (chat_dissolves_before_busy_check 1 "alice" _ "carol" [] 3 "bob" 2
              (World {[ "alice" := 1; "bob" := 2; "carol" := 3; "dave" := 4 ]}
                     {[ "alice" := "bob"; "bob" := "alice";
                        "carol" := "dave"; "dave" := "carol" ]} []) Hr)
    as (_ & _ & Hbusy & _); try reflexivity; try discriminate.
  destruct (Hbusy "dave") as [Hw Hu];
    [vm_compute; reflexivity | discriminate | discriminate |].
  split; [| exact Hu].
  etransitivity; [exact Hw |]. vm_compute. reflexivity.
Defined.

(** ** The pairing table when commands do not interleave *)

Lemma well_paired_frame w w' :
  clients w' = clients w → pairs w' = pairs w →
  well_paired w → well_paired w'.
Proof. intros Hc Hp [Hs Hr Hn]. split; rewrite ?Hc, ?Hp; auto. Qed.

Lemma well_paired_truthy w a b :
  well_paired w → pairs w !! a = Some b → a ≠ "" ∧ b ≠ "".
Proof.
  intros [Hs Hr Hn] Hab. split; intros ->.
  - destruct (Hr _ _ Hab) as [v Hv]. congruence.
  - destruct (Hr _ _ (Hs _ _ Hab)) as [v Hv]. congruence.
Qed.

Lemma well_paired_unpair w u p l :
  well_paired w → pairs w !! u = Some p →
  well_paired (World (clients w) (delete u (delete p (pairs w))) l).
Proof.
  intros [Hs Hr Hn] Hu. split; cbn; [| | done].
  - intros a b (Ha & Hab)%lookup_delete_Some.
    apply lookup_delete_Some in Hab as [Hap Hab].
    assert (Hba := Hs _ _ Hab). assert (Hpu := Hs _ _ Hu).
    rewrite !lookup_delete_Some. repeat split; try done; congruence.
  - intros a b (Ha & Hab)%lookup_delete_Some.
    apply lookup_delete_Some in Hab as [_ Hab]. eauto.
Qed.

Lemma well_paired_pair w u t l :
  well_paired w → u ≠ t →
  is_Some (clients w !! u) → is_Some (clients w !! t) →
  pairs w !! u = None → pairs w !! t = None →
  well_paired (World (clients w) (<[t := u]> (<[u := t]> (pairs w))) l).
Proof.
  intros [Hs Hr Hn] Hut Hcu Hct Hu Ht. split; cbn; [| | done].
  - intros a b Hab.
    destruct (decide (a = t)) as [-> | Hat].
    { rewrite lookup_insert_eq in Hab. injection Hab as <-.
      by rewrite lookup_insert_ne, lookup_insert_eq. }
    rewrite lookup_insert_ne in Hab by done.
    destruct (decide (a = u)) as [-> | Hau].
    { rewrite lookup_insert_eq in Hab. injection Hab as <-.
      by rewrite lookup_insert_eq. }
    rewrite lookup_insert_ne in Hab by done.
    assert (Hba := Hs _ _ Hab).
    rewrite !lookup_insert_ne by congruence. done.
  - intros a b Hab.
    destruct (decide (a = t)) as [-> | Hat]; [done |].
    rewrite lookup_insert_ne in Hab by done.
    destruct (decide (a = u)) as [-> | Hau]; [done |].
    rewrite lookup_insert_ne in Hab by done. eauto.
Qed.

Lemma well_paired_log c p l l' :
  well_paired (World c p l) → well_paired (World c p l').
Proof. by apply well_paired_frame. Qed.

Lemma well_paired_cleanup username w :
  well_paired w → well_paired (exec (cleanup_user username) w).2.
Proof.
  intros Hw. assert (Hw' := Hw). destruct Hw' as [Hs Hr Hn].
  assert (Hgone : well_paired
            (World (delete username (clients w)) (pairs w) (wire w)) ∨
          is_Some (pairs w !! username)).
  { destruct (pairs w !! username) eqn:Hu; [right; eauto | left].
    split; cbn; [done | | apply lookup_delete_None; by right].
    intros a b Hab. rewrite lookup_delete_ne by congruence. eauto. }
  destruct w as [cl pr wi]; cbn in *.
  unfold cleanup_user, cleanup_section; cbn.
  destruct (pr !! username) as [p |] eqn:Hu; cbn.
  - assert (Hbase : well_paired
              (World (delete username cl)
                 (delete username (delete p pr)) wi)).
    { apply (well_paired_unpair _ username p wi) in Hw; [| done].
      destruct Hw as [Hs' Hr' Hn']; cbn in *.
      split; cbn; [done | | apply lookup_delete_None; by right].
      intros a b Hab. assert (a ≠ username).
      { intros ->. by rewrite lookup_delete_eq in Hab. }
      rewrite lookup_delete_ne by done. eauto. }
    case_decide as Hback; cbn.
    + rewrite delete_delete in Hbase.
      destruct (delete username cl !! p), (cl !! username); cbn;
        by apply (well_paired_log _ _ wi).
    + assert (p = username) as ->.
      { destruct (decide (p = username)); [done |].
        rewrite lookup_delete_ne in Hback by done.
        by specialize (Hs _ _ Hu). }
      rewrite delete_delete_eq in Hbase.
      destruct (cl !! username); cbn; by apply (well_paired_log _ _ wi).
  - destruct Hgone as [Hg | [? ?]]; [| done].
    rewrite delete_id by done.
    destruct (cl !! username); cbn; by apply (well_paired_log _ _ wi).
Qed.

Lemma well_paired_register conn username w :
  username ≠ "" → clients w !! username = None → well_paired w →
  well_paired (exec (with_lock (register_section conn username)) w).2.
Proof.
  intros Hne Hfree [Hs Hr Hn]. cbn. rewrite register_fresh by done.
  split; cbn; [done | | by rewrite lookup_insert_ne].
  intros a b Hab. apply lookup_insert_is_Some'. right. eauto.
Qed.

Lemma well_paired_do_users conn username w :
  well_paired w → well_paired (exec (do_users conn username) w).2.
Proof.
  unfold do_users; cbn.
  by destruct (Py.sorted (other_users username w)); apply (well_paired_frame w).
Qed.

Lemma well_paired_do_message conn username msg w :
  well_paired w → well_paired (exec (do_message conn username msg) w).2.
Proof.
  intros Hw. destruct (pairs w !! username) as [p |] eqn:Hp.
  - destruct (well_paired_truthy _ _ _ Hw Hp) as [_ Hne].
    destruct (wp_reg _ Hw _ _ (wp_sym _ Hw _ _ Hp)) as [psock Hps].
    rewrite (do_message_forward _ _ _ p psock) by done.
    by apply (well_paired_frame w).
  - rewrite do_message_unpaired by (by rewrite Hp).
    by apply (well_paired_frame w).
Qed.

Lemma well_paired_do_leave conn username w :
  well_paired w → well_paired (exec (do_leave conn username) w).2.
Proof.
  intros Hw. unfold do_leave; cbn.
  destruct (pairs w !! username) as [p |] eqn:Hp; cbn;
    [| by apply (well_paired_frame w)].
  destruct (well_paired_truthy _ _ _ Hw Hp) as [_ Hne].
  rewrite decide_False by done; cbn. unfold unpair_section; cbn.
  rewrite decide_True by (by apply (wp_sym _ Hw)); cbn.
  apply (well_paired_unpair _ _ _ (wire w)) in Hp; [| done].
  destruct (clients w !! p); cbn; by apply (well_paired_log _ _ (wire w)).
Qed.

Lemma well_paired_chat_install conn username target tsock w :
  well_paired w → username ≠ target →
  is_Some (clients w !! username) → is_Some (clients w !! target) →
  pairs w !! username = None →
  well_paired (exec (chat_install conn username target tsock) w).2.
Proof.
  intros Hw Hne Hu Ht Hp. destruct (pairs w !! target) as [tp |] eqn:Htp.
  - destruct (well_paired_truthy _ _ _ Hw Htp) as [_ Hnb].
    assert (tp ≠ username).
    { intros ->. apply (wp_sym _ Hw) in Htp. congruence. }
    rewrite (exec_chat_install_refused _ _ _ _ tp) by done.
    by apply (well_paired_frame w).
  - rewrite exec_chat_install_started by (intros tp; congruence).
    by apply well_paired_pair.
Qed.

Lemma well_paired_do_chat conn username args w :
  well_paired w → is_Some (clients w !! username) →
  well_paired (exec (do_chat conn username args) w).2.
Proof.
  intros Hw Hu. destruct args as [| arg more];
    [by apply (well_paired_frame w) |].
  destruct (decide (Py.strip arg = "")) as [He | He].
  { unfold do_chat. rewrite decide_True by done. by apply (well_paired_frame w). }
  destruct (decide (Py.strip arg = username)) as [Hs | Hs].
  { unfold do_chat. rewrite decide_False, decide_True by done.
    by apply (well_paired_frame w). }
  destruct (clients w !! Py.strip arg) as [tsock |] eqn:Ht.
  2:{ unfold do_chat. rewrite !decide_False by done. cbn. rewrite Ht.
      by apply (well_paired_frame w). }
  destruct (pairs w !! username) as [old |] eqn:Hp.
  - destruct (well_paired_truthy _ _ _ Hw Hp) as [_ Hne].
    rewrite (exec_do_chat_paired _ _ _ _ tsock old) by done.
    rewrite decide_True by (by apply (wp_sym _ Hw)).
    apply well_paired_chat_install; cbn; [| done | done | by rewrite Ht
                                          | apply lookup_delete_eq].
    by apply (well_paired_unpair w).
  - rewrite (exec_do_chat_unpaired _ _ _ _ tsock) by (by rewrite ?Hp).
    apply well_paired_chat_install; by rewrite ?Ht.
Qed.

Lemma well_paired_loop_body conn username line w :
  well_paired w → is_Some (clients w !! username) →
  well_paired (exec (loop_body conn username line) w).2.
Proof.
  intros Hw Hu. unfold loop_body.
  destruct (decide (line = "")); [done |].
  destruct (decide (Py.rstrip_newline line = "")); [done |].
  destruct (Py.startswith_slash (Py.rstrip_newline line));
    [| by apply well_paired_do_message].
  destruct (Py.split1 (Py.rstrip_newline line)) as [| word args]; [done |].
  repeat case_decide;
    auto using well_paired_do_users, well_paired_do_chat,
      well_paired_do_leave;
    by apply (well_paired_frame w).
Qed.

(** Without interleaving, and with lines from registered sessions only,
    every entry of the pairing table points back. *)
Theorem serial_well_paired w : serial w → well_paired w.
Proof.
  induction 1 as [| conn username w _ IH Hne Hfree
                  | conn username line w _ IH Hu
                  | username w _ IH].
  - split; cbn; [intros a b H | intros a b H | apply lookup_empty];
      by rewrite lookup_empty in H.
  - by apply well_paired_register.
  - by apply well_paired_loop_body.
  - by apply well_paired_cleanup.
Qed.

Corollary serial_symmetric w : serial w → pairing_symmetric w.
Proof.
  intros Hs%serial_well_paired a b Hab. left. by apply (wp_sym _ Hs).
Qed.

(** ** The entry protocol *)

(** X1. A connection that gives no name.  When the first line is empty once
    the whitespace around it is taken off, the worker answers the prompt
    with the notice of the empty name, closes the connection and its
    reader, and changes neither dictionary; when the first read fails, it
    writes the prompt alone and closes both. *)
Theorem empty_name_rejected conn w :
  (∀ line rest, Py.strip line = "" →
     exec (handle_client conn (Got line :: rest)) w
     = (tt,
        World (clients w) (pairs w)
          (wire w ++
           [ Sent conn ("[SERVER] Welcome! Enter your username:" +:+ Py.newline);
             Sent conn ("[SERVER] Empty username. Bye." +:+ Py.newline);
             Closed conn; ReaderClosed conn ])))
  ∧ (∀ rest,
     exec (handle_client conn (Raised :: rest)) w
     = (tt,
        World (clients w) (pairs w)
          (wire w ++
           [ Sent conn ("[SERVER] Welcome! Enter your username:" +:+ Py.newline);
             Closed conn; ReaderClosed conn ]))).
Proof.
  split.
  - intros line rest He. unfold handle_client, finally, truthy. cbv zeta.
    rewrite He, !decide_True by done.
    destruct w as [cl pr wi]. by world_norm.
  - intros rest. destruct w as [cl pr wi]. unfold handle_client. by world_norm.
Qed.

Lemma empty_name_rejected_witness :
  exec (handle_client 3 [typed "   "]) alice_and_bob
  = (tt,
     World (clients alice_and_bob) (pairs alice_and_bob)
       [ Sent 3 (String.append "[SERVER] Welcome! Enter your username:" Py.newline);
         Sent 3 (String.append "[SERVER] Empty username. Bye." Py.newline);
         Closed 3; ReaderClosed 3 ]).
Proof.
  exact (proj1 (empty_name_rejected 3 alice_and_bob)
           (String.append "   " Py.newline) [] eq_refl).
Defined.

Lemma exec_handle_client_fresh conn line rest w :
  Py.strip line ≠ "" →
  clients w !! Py.strip line = None →
  exec (handle_client conn (Got line :: rest)) w
  = exec (session conn (Py.strip line) rest)
      (World (<[Py.strip line := conn]> (clients w)) (pairs w)
         (wire w ++
          [ Sent conn ("[SERVER] Welcome! Enter your username:" +:+ Py.newline);
            Sent conn (("[SERVER] Hello " +:+ Py.strip line +:+ "!")
                       +:+ Py.newline);
            Sent conn ("[SERVER] Commands:" +:+ Py.newline);
            Sent conn ("  /users                -> list online users"
                       +:+ Py.newline);
            Sent conn ("  /chat <username>      -> start chat with user"
                       +:+ Py.newline);
            Sent conn ("  /leave                -> leave current chat"
                       +:+ Py.newline);
            Sent conn ("  /quit                 -> disconnect" +:+ Py.newline);
            Sent conn ("[SERVER] Tip: after /chat, just type messages normally."
                       +:+ Py.newline) ])).
Proof.
  unfold handle_client, session. generalize (Py.strip line) as name.
  intros name Hne Hfree. destruct w as [cl pr wi]; cbn in Hfree.
  cbn. rewrite decide_False by done; cbn.
  unfold register_section; cbn. rewrite Hfree. by world_norm.
Qed.

(** X2. Registration of a free name.  When the first line, without the
    whitespace around it, is a name that is not empty and not in the
    registry, the worker registers the connection under it, writes the
    prompt, the greeting with the name and the six lines of help, in this
    order, and goes on with the main loop and the teardown for that name;
    the pairing table is as it was. *)
Theorem fresh_name_registered conn line rest w :
  Py.strip line ≠ "" →
  clients w !! Py.strip line = None →
  exec (handle_client conn (Got line :: rest)) w
  = exec (session conn (Py.strip line) rest)
      (World (<[Py.strip line := conn]> (clients w)) (pairs w)
         (wire w ++
          [ Sent conn ("[SERVER] Welcome! Enter your username:" +:+ Py.newline);
            Sent conn (("[SERVER] Hello " +:+ Py.strip line +:+ "!")
                       +:+ Py.newline);
            Sent conn ("[SERVER] Commands:" +:+ Py.newline);
            Sent conn ("  /users                -> list online users"
                       +:+ Py.newline);
            Sent conn ("  /chat <username>      -> start chat with user"
                       +:+ Py.newline);
            Sent conn ("  /leave                -> leave current chat"
                       +:+ Py.newline);
            Sent conn ("  /quit                 -> disconnect" +:+ Py.newline);
            Sent conn ("[SERVER] Tip: after /chat, just type messages normally."
                       +:+ Py.newline) ])).
Proof. apply exec_handle_client_fresh. Qed.

Lemma fresh_name_registered_witness :
  clients (exec (handle_client 3 [Got (String.append " carol " Py.newline);
                                   typed "/quit"])
             alice_and_bob).2
  = clients alice_and_bob
  ∧ Sent 3 (String.append "[SERVER] Hello carol!" Py.newline)
    ∈ wire (exec (handle_client 3 [Got (String.append " carol " Py.newline);
                                   typed "/quit"])
              alice_and_bob).2.
Proof.
  rewrite (fresh_name_registered 3 (String.append " carol " Py.newline)
             [typed "/quit"] alice_and_bob); [| discriminate | reflexivity].
  split; [vm_compute; reflexivity |].
  apply list_elem_of_In. vm_compute. tauto.
Defined.

(** ** Teardown, case by case *)

Lemma exec_cleanup_user_alone username w :
  (∀ p, pairs w !! username = Some p →
        p = username ∨ pairs w !! p ≠ Some username) →
  exec (cleanup_user username) w
  = (tt,
     World (delete username (clients w)) (delete username (pairs w))
       (wire w ++ match clients w !! username with
                  | Some s => [Closed s]
                  | None => []
                  end)).
Proof.
  intros Hone. destruct w as [cl pr wi]; cbn in *.
  unfold cleanup_user, cleanup_section; cbn.
  destruct (pr !! username) as [p |] eqn:Hp; cbn.
  - rewrite decide_False.
    + destruct (cl !! username); world_norm; by rewrite ?app_nil_r.
    + intros [Hne Hback]%lookup_delete_Some.
      destruct (Hone p eq_refl); congruence.
  - destruct (cl !! username); world_norm; by rewrite ?app_nil_r.
Qed.



Lemma cleanup_user_state username w :
  let w' := (exec (cleanup_user username) w).2 in
  clients w' = delete username (clients w)
  ∧ (pairs w' = delete username (pairs w)
     ∨ ∃ p, pairs w !! username = Some p
            ∧ pairs w' = delete p (delete username (pairs w)))
  ∧ ∃ new, wire w' = wire w ++ new.
Proof.
  destruct w as [cl pr wi]. unfold cleanup_user, cleanup_section; cbn.
  destruct (pr !! username) as [p |] eqn:Hp; cbn.
  - case_decide as Hback; cbn.
    + destruct (delete username cl !! p), (cl !! username); world_norm;
        (split; [done |]); (split; [right; by exists p |]);
        first [by eexists | exists []; by rewrite app_nil_r].
    + destruct (cl !! username); world_norm;
        (split; [done |]); (split; [by left |]);
        [by eexists | exists []; by rewrite app_nil_r].
  - destruct (cl !! username); world_norm;
      (split; [done |]); (split; [by left |]);
      [by eexists | exists []; by rewrite app_nil_r].
Qed.

(** X4. What [cleanup_user] leaves alone.  Every registration but the
    user's is kept; every pairing entry is kept but the user's and that of
    the user's partner; no pairing entry is created or changed; the log is
    only added to. *)
Theorem cleanup_user_frame username w :
  let w' := (exec (cleanup_user username) w).2 in
  (∀ x, x ≠ username → clients w' !! x = clients w !! x)
  ∧ (∀ x, x ≠ username → pairs w !! username ≠ Some x →
          pairs w' !! x = pairs w !! x)
  ∧ (∀ x y, pairs w' !! x = Some y → pairs w !! x = Some y)
  ∧ ∃ new, wire w' = wire w ++ new.
Proof.
  destruct (cleanup_user_state username w) as (Hc & Hp & Hw). cbv zeta.
  split; [intros x Hx; by rewrite Hc, lookup_delete_ne |].
  split; [| split; [| done]].
  - intros x Hx Hxp. destruct Hp as [-> | (p & Hu & ->)].
    + by rewrite lookup_delete_ne.
    + rewrite !lookup_delete_ne; congruence.
  - intros x y. destruct Hp as [-> | (p & Hu & ->)]; intros Hxy;
      repeat apply lookup_delete_Some in Hxy as [_ Hxy]; done.
Qed.

(** X5. Connecting and leaving.  A connection that registers a free name
    without a pairing entry and leaves the main loop at once (a [/quit], the
    end of the stream, a failed read) leaves both dictionaries as they
    were; all it has written went to its own connection, and its last two
    events are the closing of the connection and of its reader. *)
Theorem connect_disconnect_round_trip conn line rest said w :
  Py.strip line ≠ "" →
  clients w !! Py.strip line = None →
  pairs w !! Py.strip line = None →
  leaves conn rest said →
  let w' := (exec (handle_client conn (Got line :: rest)) w).2 in
  clients w' = clients w
  ∧ pairs w' = pairs w
  ∧ ∃ lines, wire w' = wire w ++ (Sent conn <$> lines)
                       ++ [Closed conn; ReaderClosed conn].
Proof.
  intros Hne Hfree Hun Hl. cbv zeta.
  rewrite exec_handle_client_fresh by done.
  unfold session, finally, truthy.
  rewrite !exec_bind, (exec_main_loop_leaves _ _ _ _ _ Hl); cbn [fst snd].
  rewrite decide_False by done.
  rewrite exec_cleanup_user_alone by (cbn; intros p; congruence).
  cbn. rewrite lookup_insert_eq, delete_insert_eq, !delete_id by done.
  split; [done |]. split; [done |].
  destruct Hl.
  - eexists (_ :: _ :: _ :: _ :: _ :: _ :: _ :: _ :: [_]). cbn.
    by rewrite <- !app_assoc.
  - eexists (_ :: _ :: _ :: _ :: _ :: _ :: _ :: [_]). cbn.
    by rewrite <- !app_assoc.
  - eexists (_ :: _ :: _ :: _ :: _ :: _ :: _ :: [_]). cbn.
    by rewrite <- !app_assoc.
  - eexists (_ :: _ :: _ :: _ :: _ :: _ :: _ :: [_]). cbn.
    by rewrite <- !app_assoc.
Qed.

Lemma connect_disconnect_round_trip_witness :
  clients (exec (handle_client 3 [Got (String.append "carol" Py.newline)])
             alice_and_bob).2 = clients alice_and_bob
  ∧ pairs (exec (handle_client 3 [Got (String.append "carol" Py.newline)])
             alice_and_bob).2 = pairs alice_and_bob.
Proof.
  destruct (connect_disconnect_round_trip 3 (String.append "carol" Py.newline)
              [] [] alice_and_bob) as (Hc & Hp & _);
    [discriminate | reflexivity | reflexivity | constructor |].
  by split.
Defined.

(** ** [/leave] *)

Lemma exec_do_leave_paired conn username p w :
  pairs w !! username = Some p → p ≠ "" →
  exec (do_leave conn username) w
  = (Continue,
     World (clients w)
       (delete username
          (if decide (pairs w !! p = Some username)
           then delete p (pairs w) else pairs w))
       (wire w
        ++ match clients w !! p with
           | Some psock =>
               [Sent psock (("[SERVER] " +:+ username +:+ " left the chat.")
                            +:+ Py.newline)]
           | None => []
           end
        ++ [Sent conn (("[SERVER] You left the chat with " +:+ p +:+ ".")
                       +:+ Py.newline)])).
Proof.
  intros Hp Hne. destruct w as [cl pr wi]; cbn in *.
  unfold do_leave; cbn. rewrite Hp; cbn.
  rewrite (decide_False (P := p = "")) by done. unfold unpair_section; cbn.
  destruct (decide (pr !! p = Some username)); cbn;
    destruct (cl !! p); world_norm; by rewrite ?app_nil_r.
Qed.

Lemma exec_do_leave_unpaired conn username w :
  truthy (pairs w !! username) = false →
  exec (do_leave conn username) w
  = (Continue,
     World (clients w) (pairs w)
       (wire w ++ [Sent conn ("[SERVER] You're not in a chat." +:+ Py.newline)])).
Proof.
  intros Ht. unfold do_leave; cbn.
  destruct (pairs w !! username) as [p |]; [rewrite Ht |]; by destruct w.
Qed.

(** X6. [/leave] in a chat.  When the sender and the partner are paired
    with each other and the partner is registered, [/leave] removes both
    pairing entries and no other, tells the partner that the sender left and
    tells the sender which chat was left, in this order, and the loop goes
    on. *)
Theorem leave_ends_the_chat conn username line args partner psock w :
  reads_as line "/leave" args →
  partner ≠ "" →
  username ≠ partner →
  pairs w !! username = Some partner →
  pairs w !! partner = Some username →
  clients w !! partner = Some psock →
  let w' := (exec (loop_body conn username line) w).2 in
  exec (loop_body conn username line) w
  = (Continue,
     World (clients w) (delete username (delete partner (pairs w)))
       (wire w ++
        [ Sent psock (("[SERVER] " +:+ username +:+ " left the chat.")
                      +:+ Py.newline);
          Sent conn (("[SERVER] You left the chat with " +:+ partner +:+ ".")
                     +:+ Py.newline) ]))
  ∧ pairs w' !! username = None
  ∧ pairs w' !! partner = None
  ∧ ∀ x, x ≠ username → x ≠ partner → pairs w' !! x = pairs w !! x.
Proof.
  intros Hr Hne Hup Hu Hp Hc. cbv zeta.
  rewrite (loop_body_command _ _ _ _ _ Hr).
  rewrite !(decide_False (P := "/leave" = _)) by done.
  rewrite (decide_True (P := "/leave" = "/leave")) by done.
  rewrite (exec_do_leave_paired _ _ partner) by done.
  rewrite decide_True, Hc by done. cbn.
  split; [done |]. split; [apply lookup_delete_eq |].
  split; [by rewrite lookup_delete_ne, lookup_delete_eq |].
  intros x Hx Hxp. by rewrite !lookup_delete_ne.
Qed.

Lemma leave_ends_the_chat_witness :
  exec (loop_body 2 "bob" (String.append "/leave" Py.newline)) alice_and_bob
  = (Continue,
     World (clients alice_and_bob) (delete "bob" (delete "alice" (pairs alice_and_bob)))
       [ Sent 1 (String.append "[SERVER] bob left the chat." Py.newline);
         Sent 2 (String.append "[SERVER] You left the chat with alice."
                   Py.newline) ]).
Proof.
  refine (proj1 (leave_ends_the_chat 2 "bob" _ [] "alice" 1 alice_and_bob
                   _ _ _ _ _ _)); try reflexivity; try discriminate.
  split; [reflexivity |]. exists "/leave". split; reflexivity.
Defined.

(** X7. [/leave] outside a chat.  A sender without a pairing entry is told
    that there is no chat; nothing else is written and neither dictionary
    changes. *)
Theorem leave_without_chat conn username line args w :
  reads_as line "/leave" args →
  pairs w !! username = None →
  exec (loop_body conn username line) w
  = (Continue,
     World (clients w) (pairs w)
       (wire w ++ [Sent conn ("[SERVER] You're not in a chat." +:+ Py.newline)])).
Proof.
  intros Hr Hu. rewrite (loop_body_command _ _ _ _ _ Hr).
  rewrite !(decide_False (P := "/leave" = _)) by done.
  rewrite (decide_True (P := "/leave" = "/leave")) by done.
  apply exec_do_leave_unpaired. by rewrite Hu.
Qed.

Lemma leave_without_chat_witness :
  exec (loop_body 1 "alice" (String.append "/LEAVE now" Py.newline))
    (World {[ "alice" := 1 ]} ∅ [])
  = (Continue,
     World {[ "alice" := 1 ]} ∅
       [Sent 1 (String.append "[SERVER] You're not in a chat." Py.newline)]).
Proof.
  refine (leave_without_chat 1 "alice" _ ["now"] (World {[ "alice" := 1 ]} ∅ [])
            _ _); [| reflexivity].
  split; [reflexivity |]. exists "/LEAVE". split; reflexivity.
Defined.

(** ** [/chat]: refusals and success *)

(** X8. The refusals of [/chat] that come before any lookup of a pairing.
    Without a name after the command the reply is the usage line; with the
    sender's own name it is the refusal to chat with oneself; with a name
    that is not registered it is the notice that the user was not found.
    Each time the reply is the only line written, it goes to the sender,
    and neither dictionary changes. *)
Theorem chat_refusals conn username line w :
  (reads_as line "/chat" [] →
   exec (loop_body conn username line) w
   = (Continue,
      World (clients w) (pairs w)
        (wire w ++ [Sent conn ("[SERVER] Usage: /chat <username>"
                               +:+ Py.newline)])))
  ∧ (∀ arg more,
     reads_as line "/chat" (arg :: more) → Py.strip arg = username →
     username ≠ "" →
     exec (loop_body conn username line) w
     = (Continue,
        World (clients w) (pairs w)
          (wire w ++ [Sent conn ("[SERVER] You can't chat with yourself."
                                 +:+ Py.newline)])))
  ∧ (∀ arg more,
     reads_as line "/chat" (arg :: more) →
     Py.strip arg ≠ "" → Py.strip arg ≠ username →
     clients w !! Py.strip arg = None →
     exec (loop_body conn username line) w
     = (Continue,
        World (clients w) (pairs w)
          (wire w ++ [Sent conn (("[SERVER] User '" +:+ Py.strip arg
                                  +:+ "' not found.") +:+ Py.newline)]))).
Proof.
  split; [| split].
  - intros Hr. rewrite (loop_body_command _ _ _ _ _ Hr).
    rewrite decide_False, decide_True by done. by destruct w.
  - intros arg more Hr Hs Hne. rewrite (loop_body_command _ _ _ _ _ Hr).
    rewrite decide_False, decide_True by done. unfold do_chat.
    rewrite decide_False, decide_True by congruence. by destruct w.
  - intros arg more Hr Hne Hns Hc. rewrite (loop_body_command _ _ _ _ _ Hr).
    rewrite decide_False, decide_True by done. unfold do_chat.
    rewrite !decide_False by done. destruct w as [cl pr wi]; cbn in *.
    by rewrite Hc.
Qed.

Lemma chat_refusals_witness :
  exec (loop_body 1 "alice" (String.append "/chat" Py.newline)) alice_and_bob
  = (Continue,
     World (clients alice_and_bob) (pairs alice_and_bob)
       [Sent 1 (String.append "[SERVER] Usage: /chat <username>" Py.newline)])
  ∧ exec (loop_body 1 "alice" (String.append "/chat  alice " Py.newline))
      alice_and_bob
    = (Continue,
       World (clients alice_and_bob) (pairs alice_and_bob)
         [Sent 1 (String.append "[SERVER] You can't chat with yourself."
                    Py.newline)])
  ∧ exec (loop_body 1 "alice" (String.append "/chat zoe" Py.newline))
      alice_and_bob
    = (Continue,
       World (clients alice_and_bob) (pairs alice_and_bob)
         [Sent 1 (String.append "[SERVER] User 'zoe' not found." Py.newline)]).
Proof.
  split; [| split].
  - refine (proj1 (chat_refusals 1 "alice" _ alice_and_bob) _).
    split; [reflexivity |]. exists "/chat". split; reflexivity.
  - refine (proj1 (proj2 (chat_refusals 1 "alice" _ alice_and_bob))
              "alice " [] _ _ _); [| reflexivity | discriminate].
    split; [reflexivity |]. exists "/chat". split; reflexivity.
  - refine (proj2 (proj2 (chat_refusals 1 "alice" _ alice_and_bob))
              "zoe" [] _ _ _ _); [| discriminate | discriminate | reflexivity].
    split; [reflexivity |]. exists "/chat". split; reflexivity.
Defined.

(** X9. [/chat] between two users who are free.  When the target is
    registered and neither the sender nor the target has a pairing entry,
    the two are paired with each other, the sender is told that the chat
    started and then the target that the sender started it, [get_partner]
    gives each the other, and no other pairing entry changes. *)
Theorem chat_pairs_two_free_users conn username line arg more tsock w :
  reads_as line "/chat" (arg :: more) →
  Py.strip arg ≠ "" →
  Py.strip arg ≠ username →
  clients w !! Py.strip arg = Some tsock →
  pairs w !! username = None →
  pairs w !! Py.strip arg = None →
  let target := Py.strip arg in
  let w' := (exec (loop_body conn username line) w).2 in
  exec (loop_body conn username line) w
  = (Continue,
     World (clients w)
       (<[target := username]> (<[username := target]> (pairs w)))
       (wire w ++
        [ Sent conn (("[SERVER] Chat started with " +:+ target +:+ ".")
                     +:+ Py.newline);
          Sent tsock (("[SERVER] " +:+ username
                       +:+ " started a chat with you. You are now connected.")
                      +:+ Py.newline) ]))
  ∧ (exec (get_partner username) w').1 = Some target
  ∧ (exec (get_partner target) w').1 = Some username
  ∧ ∀ x, x ≠ username → x ≠ target → pairs w' !! x = pairs w !! x.
Proof.
  intros Hr Hne Hns Hc Hu Ht. cbv zeta.
  rewrite (loop_body_command _ _ _ _ _ Hr).
  rewrite decide_False, decide_True by done.
  rewrite (exec_do_chat_unpaired _ _ _ _ tsock) by (by rewrite ?Hu).
  rewrite exec_chat_install_started by (intros tp; congruence). cbn.
  split; [done |].
  split; [by rewrite lookup_insert_ne, lookup_insert_eq |].
  split; [by rewrite lookup_insert_eq |].
  intros x Hx Hxt. by rewrite !lookup_insert_ne.
Qed.

Lemma chat_pairs_two_free_users_witness :
  exec (loop_body 1 "alice" (String.append "/chat bob" Py.newline))
    (World {[ "alice" := 1; "bob" := 2 ]} ∅ [])
  = (Continue,
     World {[ "alice" := 1; "bob" := 2 ]}
       (<["bob" := "alice"]> (<["alice" := "bob"]> ∅))
       [ Sent 1 (String.append "[SERVER] Chat started with bob." Py.newline);
         Sent 2 (String.append
                   "[SERVER] alice started a chat with you. You are now connected."
                   Py.newline) ]).
Proof.
  refine (proj1 (chat_pairs_two_free_users 1 "alice" _ "bob" [] 2
                   (World {[ "alice" := 1; "bob" := 2 ]} ∅ [])
                   _ _ _ _ _ _)); try reflexivity; try discriminate.
  split; [reflexivity |]. exists "/chat". split; reflexivity.
Defined.

(** X10. [/chat] and then [/leave].  A free sender who starts a chat with
    a free, registered target and then leaves it brings both dictionaries
    back to what they were. *)
Theorem chat_then_leave_round_trip
    conn username line1 arg more line2 args2 tsock w :
  reads_as line1 "/chat" (arg :: more) →
  reads_as line2 "/leave" args2 →
  Py.strip arg ≠ "" →
  Py.strip arg ≠ username →
  clients w !! Py.strip arg = Some tsock →
  pairs w !! username = None →
  pairs w !! Py.strip arg = None →
  let w1 := (exec (loop_body conn username line1) w).2 in
  let w2 := (exec (loop_body conn username line2) w1).2 in
  clients w2 = clients w ∧ pairs w2 = pairs w.
Proof.
  intros Hr1 Hr2 Hne Hns Hc Hu Ht. cbv zeta.
  rewrite (loop_body_command _ _ _ _ _ Hr1).
  rewrite decide_False, decide_True by done.
  rewrite (exec_do_chat_unpaired _ _ _ _ tsock) by (by rewrite ?Hu).
  rewrite exec_chat_install_started by (intros tp; congruence). cbn [snd].
  rewrite (loop_body_command _ _ _ _ _ Hr2).
  rewrite !(decide_False (P := "/leave" = _)) by done.
  rewrite (decide_True (P := "/leave" = "/leave")) by done.
  rewrite (exec_do_leave_paired _ _ (Py.strip arg)); cbn;
    [| by rewrite lookup_insert_ne, lookup_insert_eq | done].
  split; [done |].
  rewrite decide_True by (by rewrite lookup_insert_eq).
  apply map_eq. intros x. rewrite !lookup_delete, !lookup_insert.
  repeat case_decide; congruence.
Qed.

Lemma chat_then_leave_round_trip_witness :
  let w := World {[ "alice" := 1; "bob" := 2 ]} ∅ [] in
  let w1 :=
    (exec (loop_body 1 "alice" (String.append "/chat bob" Py.newline)) w).2 in
  pairs (exec (loop_body 1 "alice" (String.append "/leave" Py.newline)) w1).2
  = ∅.
Proof.
  refine (proj2 (chat_then_leave_round_trip 1 "alice" _ "bob" [] _ [] 2
                   (World {[ "alice" := 1; "bob" := 2 ]} ∅ [])
                   _ _ _ _ _ _ _)); try reflexivity; try discriminate.
  - split; [reflexivity |]. exists "/chat". split; reflexivity.
  - split; [reflexivity |]. exists "/leave". split; reflexivity.
Defined.

(** X11. A chat is open in both directions.  After a free sender's
    [/chat] with a free, registered target, a message line from the target
    goes to the sender's connection, behind the target's name, without any
    command from the target. *)
Theorem chat_opens_both_directions
    conn username line arg more tconn usock reply w :
  reads_as line "/chat" (arg :: more) →
  Py.strip arg ≠ "" →
  Py.strip arg ≠ username →
  username ≠ "" →
  clients w !! username = Some usock →
  clients w !! Py.strip arg = Some tconn →
  pairs w !! username = None →
  pairs w !! Py.strip arg = None →
  Py.rstrip_newline reply ≠ "" →
  Py.startswith_slash (Py.rstrip_newline reply) = false →
  let target := Py.strip arg in
  let w1 := (exec (loop_body conn username line) w).2 in
  exec (loop_body tconn target reply) w1
  = (Continue,
     World (clients w1) (pairs w1)
       (wire w1 ++
        [Sent usock ((target +:+ ": " +:+ Py.rstrip_newline reply)
                     +:+ Py.newline)])).
Proof.
  intros Hr Hne Hns Hue Hcu Hct Hu Ht Hm Hs. cbv zeta.
  rewrite (loop_body_command _ _ _ _ _ Hr).
  rewrite decide_False, decide_True by done.
  rewrite (exec_do_chat_unpaired _ _ _ _ tconn) by (by rewrite ?Hu).
  rewrite exec_chat_install_started by (intros tp; congruence). cbn [snd].
  rewrite loop_body_message by done.
  rewrite (do_message_forward _ _ _ username usock); cbn;
    [done | by rewrite lookup_insert_eq | done | done].
Qed.

Lemma chat_opens_both_directions_witness :
  let w := World {[ "alice" := 1; "bob" := 2 ]} ∅ [] in
  let w1 :=
    (exec (loop_body 1 "alice" (String.append "/chat bob" Py.newline)) w).2 in
  wire (exec (loop_body 2 "bob" (String.append "hi" Py.newline)) w1).2
  = wire w1 ++ [Sent 1 (String.append "bob: hi" Py.newline)].
Proof.
  cbv zeta.
  rewrite (chat_opens_both_directions 1 "alice" _ "bob" [] 2 1
             (String.append "hi" Py.newline)
             (World {[ "alice" := 1; "bob" := 2 ]} ∅ []));
    try reflexivity; try discriminate.
  split; [reflexivity |]. exists "/chat". split; reflexivity.
Defined.

(** ** The other commands *)

(** X12. [/quit] and the commands the server does not know.  A [/quit]
    line is answered with the farewell and ends the loop; a line that
    begins with a slash and whose first word is none of the four commands
    is answered with the notice of an unknown command, and the loop goes
    on.  Either way the dictionaries are not touched and the words behind
    the command are ignored. *)
Theorem quit_and_unknown_commands conn username line cmd args w :
  reads_as line cmd args →
  (cmd = "/quit" →
   exec (loop_body conn username line) w
   = (Break,
      World (clients w) (pairs w)
        (wire w ++ [Sent conn ("[SERVER] Bye." +:+ Py.newline)])))
  ∧ (cmd ≠ "/users" → cmd ≠ "/chat" → cmd ≠ "/leave" → cmd ≠ "/quit" →
     exec (loop_body conn username line) w
     = (Continue,
        World (clients w) (pairs w)
          (wire w ++ [Sent conn ("[SERVER] Unknown command." +:+ Py.newline)]))).
Proof.
  intros Hr. rewrite (loop_body_command _ _ _ _ _ Hr). split.
  - intros ->. rewrite !(decide_False (P := "/quit" = _)) by done.
    rewrite (decide_True (P := "/quit" = "/quit")) by done. by destruct w.
  - intros H1 H2 H3 H4. rewrite !decide_False by done. by destruct w.
Qed.

Lemma quit_and_unknown_commands_witness :
  exec (loop_body 1 "alice" (String.append "/Quit please" Py.newline))
    alice_and_bob
  = (Break,
     World (clients alice_and_bob) (pairs alice_and_bob)
       [Sent 1 (String.append "[SERVER] Bye." Py.newline)])
  ∧ exec (loop_body 1 "alice" (String.append "/help" Py.newline))
      alice_and_bob
    = (Continue,
       World (clients alice_and_bob) (pairs alice_and_bob)
         [Sent 1 (String.append "[SERVER] Unknown command." Py.newline)]).
Proof.
  split.
  - refine (proj1 (quit_and_unknown_commands 1 "alice" _ "/quit" ["please"]
                     alice_and_bob _) eq_refl).
    split; [reflexivity |]. exists "/Quit". split; reflexivity.
  - refine (proj2 (quit_and_unknown_commands 1 "alice" _ "/help" []
                     alice_and_bob _) _ _ _ _); try discriminate.
    split; [reflexivity |]. exists "/help". split; reflexivity.
Defined.

(** X13. A partner that is gone is reported once.  When the sender's
    pairing entry names a user that is not registered, the first message
    line is answered with the notice that the partner disconnected and
    removes the entry; the next message line is answered with the notice
    that there is no chat.  The registry does not change. *)
Theorem vanished_partner_reported_once conn username line1 line2 p w :
  Py.rstrip_newline line1 ≠ "" →
  Py.startswith_slash (Py.rstrip_newline line1) = false →
  Py.rstrip_newline line2 ≠ "" →
  Py.startswith_slash (Py.rstrip_newline line2) = false →
  pairs w !! username = Some p → p ≠ "" → clients w !! p = None →
  let w1 := (exec (loop_body conn username line1) w).2 in
  let w2 := (exec (loop_body conn username line2) w1).2 in
  wire w2
  = wire w ++
    [ Sent conn ("[SERVER] Partner disconnected. Chat closed." +:+ Py.newline);
      Sent conn
        ("[SERVER] You're not in a chat. Use /users then /chat <username>."
         +:+ Py.newline) ]
  ∧ pairs w2 = delete username (pairs w)
  ∧ clients w2 = clients w.
Proof.
  intros Hm1 Hs1 Hm2 Hs2 Hp Hne Hc. cbv zeta.
  rewrite !loop_body_message by done.
  rewrite (do_message_dangling conn username (Py.rstrip_newline line1) p w)
    by done.
  cbn [snd].
  rewrite do_message_unpaired
    by (unfold emit, set_pairs; cbn; by rewrite lookup_delete_eq).
  unfold emit, set_pairs; cbn. by rewrite <- app_assoc.
Qed.

Lemma vanished_partner_reported_once_witness :
  let w := World {[ "alice" := 1 ]} {[ "alice" := "bob" ]} [] in
  let w1 := (exec (loop_body 1 "alice" (String.append "hi" Py.newline)) w).2 in
  pairs (exec (loop_body 1 "alice" (String.append "there" Py.newline)) w1).2
  = delete "alice" {[ "alice" := "bob" ]}.
Proof.
  refine (proj1 (proj2 (vanished_partner_reported_once 1 "alice"
            (String.append "hi" Py.newline) (String.append "there" Py.newline)
            "bob" (World {[ "alice" := 1 ]} {[ "alice" := "bob" ]} [])
            _ _ _ _ _ _ _))); try reflexivity; discriminate.
Defined.

(** ** Names in the dictionaries, under every schedule *)

Lemma keeps_bind P {A B} (p : prog A) (g : A → prog B) :
  keeps P p → (∀ a, keeps P (g a)) → keeps P (p ≫= g).
Proof.
  intros Hp Hg. induction p as [a | C l body k IH]; cbn; [apply Hg |].
  intros w Hw. destruct (Hp w Hw) as [H1 H2]. split; [done |]. by apply IH.
Qed.

Lemma keeps_run P schedule w pool :
  P w → Forall (keeps P) pool →
  P (run schedule (w, pool)).1 ∧ Forall (keeps P) (run schedule (w, pool)).2.
Proof.
  revert w pool. induction schedule as [| i schedule IH]; intros w pool Hw Hpool;
    [done |].
  cbn. unfold sched_step; cbn.
  destruct (pool !! i) as [p |] eqn:Hi; [| by apply IH].
  destruct p as [a | C l body k]; cbn; [by apply IH |].
  assert (Hk := proj1 (Forall_lookup _ _) Hpool _ _ Hi w Hw). cbn in Hk.
  destruct (body w) as [b w'] eqn:Hb; cbn in Hk. destruct Hk as [Hw' Hk].
  apply IH; [done |]. by apply Forall_insert.
Qed.

Lemma tidy_frame w w' :
  clients w' = clients w → pairs w' = pairs w → tidy w → tidy w'.
Proof. intros Hc Hp [H1 H2]. split; rewrite ?Hc, ?Hp; auto. Qed.

Lemma tidy_delete_pair k w :
  tidy w → tidy (set_pairs (delete k (pairs w)) w).
Proof.
  intros [H1 H2]. split; [done |]. cbn.
  intros a b [_ Hab]%lookup_delete_Some. eauto.
Qed.

Lemma tidy_delete_client k w :
  tidy w → tidy (set_clients (delete k (clients w)) w).
Proof.
  intros [H1 H2]. split; [| done]. cbn. apply lookup_delete_None. by right.
Qed.

Lemma tidy_pair a b w :
  a ≠ "" → b ≠ "" → a ≠ b →
  tidy w → tidy (set_pairs (<[b := a]> (<[a := b]> (pairs w))) w).
Proof.
  intros Ha Hb Hab [H1 H2]. split; [done |]. cbn. intros x y Hxy.
  apply lookup_insert_Some in Hxy as [[<- <-] | [Hx Hxy]]; [done |].
  apply lookup_insert_Some in Hxy as [[<- <-] | [Hx' Hxy]]; [done |]. eauto.
Qed.

Lemma tidy_register name conn w :
  name ≠ "" → tidy w → tidy (set_clients (<[name := conn]> (clients w)) w).
Proof. intros Hn [H1 H2]. split; [| done]. cbn. by rewrite lookup_insert_ne. Qed.

Lemma tidy_emit e w : tidy w → tidy (emit e w).
Proof. by apply tidy_frame. Qed.

Lemma keeps_send_line s text : keeps tidy (send_line s text).
Proof. intros w Hw. split; [by apply tidy_emit | done]. Qed.

Lemma keeps_safe_close s : keeps tidy (safe_close s).
Proof. intros w Hw. split; [by apply tidy_emit | done]. Qed.

Lemma keeps_close_reader s : keeps tidy (close_reader s).
Proof. intros w Hw. split; [by apply tidy_emit | done]. Qed.

Lemma keeps_get_partner u : keeps tidy (get_partner u).
Proof. by intros w Hw. Qed.

Lemma keeps_get_socket u : keeps tidy (get_socket u).
Proof. by intros w Hw. Qed.

Lemma keeps_list_users u : keeps tidy (list_users u).
Proof. by intros w Hw. Qed.

Lemma keeps_set_pair a b :
  a ≠ "" → b ≠ "" → a ≠ b → keeps tidy (set_pair a b).
Proof. intros Ha Hb Hab w Hw. split; [by apply tidy_pair | done]. Qed.

Lemma keeps_unpair u p : keeps tidy (with_lock (unpair_section u p)).
Proof.
  intros w Hw. split; [| done]. unfold unpair_section; cbn.
  case_decide; repeat apply tidy_delete_pair; done.
Qed.

Lemma keeps_cleanup_user u : keeps tidy (cleanup_user u).
Proof.
  unfold cleanup_user. apply keeps_bind.
  - intros w Hw. split; [| done]. unfold cleanup_section; cbn.
    apply (tidy_delete_client u), (tidy_delete_pair u) in Hw.
    destruct (pairs w !! u) as [p |]; [| done]. cbn.
    case_decide; [by apply (tidy_delete_pair p) in Hw | done].
  - intros [sock psock]. apply keeps_bind; [| intros _].
    + destruct psock; [apply keeps_send_line | done].
    + destruct sock; [apply keeps_safe_close | done].
Qed.

Lemma keeps_forget u :
  keeps tidy (with_lock (λ w, (tt, set_pairs (delete u (pairs w)) w))).
Proof. intros w Hw. split; [by apply tidy_delete_pair | done]. Qed.

Ltac keeps_step :=
  first
    [ exact I
    | apply keeps_send_line | apply keeps_safe_close | apply keeps_close_reader
    | apply keeps_get_partner | apply keeps_get_socket | apply keeps_list_users
    | apply keeps_unpair | apply keeps_cleanup_user | apply keeps_forget
    | apply keeps_set_pair; done
    | apply keeps_bind; [| intros ?]
    | case_decide
    | match goal with
      | |- keeps _ (match ?x with _ => _ end) => destruct x eqn:?
      end ].

Lemma keeps_loop_body conn username line :
  username ≠ "" → keeps tidy (loop_body conn username line).
Proof.
  intros Hne. unfold loop_body, do_users, do_chat, chat_install, do_leave,
    do_message.
  repeat keeps_step.
Qed.

Lemma keeps_main_loop conn username stream :
  username ≠ "" → keeps tidy (main_loop conn username stream).
Proof.
  intros Hne. induction stream as [| [line |] rest IH]; cbn; [done | | done].
  apply keeps_bind; [by apply keeps_loop_body |]. by intros [].
Qed.

Lemma keeps_finally conn username : keeps tidy (finally conn username).
Proof. unfold finally. repeat keeps_step. Qed.

Lemma keeps_register conn username :
  username ≠ "" →
  ∀ k : bool → prog unit, (∀ b, keeps tidy (k b)) →
  keeps tidy (with_lock (register_section conn username) ≫= k).
Proof.
  intros Hne k Hk. apply keeps_bind; [| done].
  intros w Hw. split; [| done]. unfold register_section.
  destruct (clients w !! username); cbn; [by apply tidy_emit |].
  by apply tidy_register.
Qed.

Lemma keeps_handle_client conn stream : keeps tidy (handle_client conn stream).
Proof.
  unfold handle_client. apply keeps_bind; [apply keeps_send_line | intros _].
  destruct stream as [| [line |] rest].
  - apply keeps_bind; [apply keeps_send_line | intros _; apply keeps_finally].
  - case_decide.
    + apply keeps_bind; [apply keeps_send_line | intros _; apply keeps_finally].
    + apply keeps_register; [done |]. intros [].
      * unfold greeting. repeat keeps_step; try apply keeps_finally.
        by apply keeps_main_loop.
      * apply keeps_finally.
  - apply keeps_finally.
Qed.

Lemma keeps_workers streams : Forall (keeps tidy) (workers streams).
Proof.
  unfold workers. apply Forall_forall. intros p Hp.
  apply elem_of_lookup_imap in Hp as (i & stream & -> & _).
  apply keeps_handle_client.
Qed.

Lemma tidy_boot : tidy boot.
Proof. split; [done |]. intros a b Hab. cbn in Hab. by rewrite lookup_empty in Hab. Qed.

(** X14. Names in the dictionaries, under every schedule.  Whatever the
    connections deliver and however the steps of their workers interleave,
    the empty name is never registered, no pairing entry has the empty
    name on either side, and nobody is paired with themselves. *)
Theorem names_stay_tidy w :
  reachable w →
  clients w !! "" = None
  ∧ ∀ a b, pairs w !! a = Some b → a ≠ "" ∧ b ≠ "" ∧ a ≠ b.
Proof.
  intros (streams & schedule & <-).
  apply (keeps_run tidy schedule boot (workers streams) tidy_boot
           (keeps_workers streams)).
Qed.


Lemma names_stay_tidy_witness :
  let w := (run racing (boot, workers three_clients)).1 in
  clients w !! "" = None
  ∧ ∀ a b, pairs w !! a = Some b → a ≠ "" ∧ b ≠ "" ∧ a ≠ b.
Proof.
  cbv zeta. apply names_stay_tidy. exists three_clients, racing. reflexivity.
Defined.

(** ** The lock discipline, and the end of a worker *)

Lemma every_step_bind {A B} Q (p : prog A) (g : A → prog B) :
  every_step Q p → (∀ a, every_step Q (g a)) → every_step Q (p ≫= g).
Proof.
  intros Hp Hg. induction p as [a | C l body k IH]; cbn; [apply Hg |].
  destruct Hp as [H1 H2]. split; [done |]. intros b. by apply IH.
Qed.

Lemma every_step_impl {A} (Q Q' : bool → world → world → Prop) (p : prog A) :
  (∀ l w w', Q l w w' → Q' l w w') → every_step Q p → every_step Q' p.
Proof.
  intros HQ. induction p as [a | C l body k IH]; [done |].
  intros [H1 H2]. split; [intros w; apply HQ, H1 | intros b; apply IH, H2].
Qed.

Lemma every_step_exec {A} (Q : bool → world → world → Prop) (R : relation world)
  (p : prog A) w :
  Reflexive R → Transitive R → (∀ l w w', Q l w w' → R w w') →
  every_step Q p → R w (exec p w).2.
Proof.
  intros Hrefl Htrans HQ. revert w.
  induction p as [a | C l body k IH]; intros w Hp; [done |].
  destruct Hp as [H1 H2]. cbn. specialize (H1 w).
  destruct (body w) as [b w'] eqn:Hb. cbn in H1.
  transitivity w'; [by eapply HQ | by apply IH].
Qed.

Lemma discipline_unlocked conn (e : event) :
  every_step (lock_discipline conn) (no_lock (λ w, (tt, emit e w))).
Proof. split; [| done]. intros w. cbn. eauto. Qed.

Lemma discipline_locked conn {B} (body : crit B) :
  (∀ w, wire (body w).2 = wire w) →
  every_step (lock_discipline conn) (with_lock body).
Proof. intros H. split; [| done]. intros w. cbn. by left. Qed.

Lemma discipline_send_line conn s text :
  every_step (lock_discipline conn) (send_line s text).
Proof. apply discipline_unlocked. Qed.

Lemma discipline_cleanup_user conn u :
  every_step (lock_discipline conn) (cleanup_user u).
Proof.
  unfold cleanup_user. apply every_step_bind.
  - apply discipline_locked. intros w. unfold cleanup_section; cbn.
    destruct (pairs w !! u); [| done]. cbn. by case_decide.
  - intros [sock psock]. apply every_step_bind; [| intros _].
    + destruct psock; [apply discipline_send_line | done].
    + destruct sock; [apply discipline_unlocked | done].
Qed.

Ltac discipline_step :=
  first
    [ exact I
    | apply discipline_send_line
    | apply discipline_unlocked
    | apply discipline_cleanup_user
    | apply discipline_locked; intros ?; unfold unpair_section; cbn;
      try case_decide; reflexivity
    | apply every_step_bind; [| intros ?]
    | case_decide
    | match goal with
      | |- every_step _ (match ?x with _ => _ end) => destruct x eqn:?
      end ].

Lemma discipline_loop_body conn username line :
  every_step (lock_discipline conn) (loop_body conn username line).
Proof.
  unfold loop_body, do_users, do_chat, chat_install, do_leave, do_message,
    list_users, get_partner, get_socket, set_pair.
  repeat discipline_step.
Qed.

Lemma discipline_main_loop conn username stream :
  every_step (lock_discipline conn) (main_loop conn username stream).
Proof.
  induction stream as [| [line |] rest IH]; cbn; [done | | done].
  apply every_step_bind; [apply discipline_loop_body |]. by intros [].
Qed.

Lemma discipline_finally conn username :
  every_step (lock_discipline conn) (finally conn username).
Proof. unfold finally, safe_close, close_reader. repeat discipline_step. Qed.

(** X15. The lock discipline of a worker.  Whatever a connection
    delivers, every step of its worker outside a critical section writes
    one event to the transport and leaves both dictionaries as they are;
    every critical section writes nothing to the transport, except the one
    of the registration, which sends the notice of a taken name to the
    worker's own connection while it holds the lock. *)
Theorem handle_client_lock_discipline conn stream :
  every_step (lock_discipline conn) (handle_client conn stream).
Proof.
  unfold handle_client.
  apply every_step_bind; [apply discipline_send_line | intros _].
  destruct stream as [| [line |] rest].
  - apply every_step_bind;
      [apply discipline_send_line | intros _; apply discipline_finally].
  - case_decide.
    + apply every_step_bind;
        [apply discipline_send_line | intros _; apply discipline_finally].
    + apply every_step_bind.
      * split; [| done]. intros w. cbn. unfold register_section.
        destruct (clients w !! Py.strip line); cbn; [by right | by left].
      * intros []; [| apply discipline_finally].
        unfold greeting. repeat discipline_step;
          first [apply discipline_main_loop | apply discipline_finally].
  - apply discipline_finally.
Qed.

Lemma exec_extends conn {A} (p : prog A) w :
  every_step (lock_discipline conn) p →
  ∃ log, wire (exec p w).2 = wire w ++ log.
Proof.
  intros Hp.
  apply (every_step_exec (lock_discipline conn)
           (λ w w', ∃ log, wire w' = wire w ++ log)); [| | | done].
  - intros w0. exists []. by rewrite app_nil_r.
  - intros w1 w2 w3 [l1 H1] [l2 H2]. exists (l1 ++ l2).
    by rewrite H2, H1, app_assoc.
  - intros [] w1 w2; cbn.
    + intros [H | [H _]]; [exists []; by rewrite app_nil_r | eauto].
    + intros (_ & _ & e & H). eauto.
Qed.

Lemma closes_bind conn {A B} (p : prog A) (g : A → prog B) :
  every_step (lock_discipline conn) p →
  (∀ a, closes_reader_last conn (g a)) →
  closes_reader_last conn (p ≫= g).
Proof.
  intros Hp Hg w. rewrite exec_bind.
  destruct (exec_extends conn p w Hp) as [l1 H1].
  destruct (Hg (exec p w).1 (exec p w).2) as [l2 H2].
  exists (l1 ++ l2). by rewrite H2, H1, <- !app_assoc.
Qed.

Lemma closes_finally conn username :
  closes_reader_last conn (finally conn username).
Proof.
  unfold finally. apply closes_bind.
  - unfold safe_close. repeat discipline_step.
  - intros _ w. exists []. by destruct w.
Qed.

(** X16. A worker always ends by closing its reader.  From every world
    and on every stream, the first event of a worker that is not
    interrupted is the prompt on its connection and the last one is the
    closing of the reader of its connection; the log before it is kept. *)
Theorem handle_client_closes_reader_last conn stream w :
  ∃ log,
    wire (exec (handle_client conn stream) w).2
    = wire w
      ++ Sent conn ("[SERVER] Welcome! Enter your username:" +:+ Py.newline)
         :: log ++ [ReaderClosed conn].
Proof.
  unfold handle_client. rewrite exec_bind.
  change (exec (send_line conn "[SERVER] Welcome! Enter your username:") w).1
    with tt.
  match goal with
  | |- ∃ log, wire (exec ?p _).2 = _ =>
      assert (H : closes_reader_last conn p)
  end.
  { destruct stream as [| [line |] rest].
    - apply closes_bind; [apply discipline_send_line |].
      intros _. apply closes_finally.
    - cbv zeta. case_decide.
      + apply closes_bind; [apply discipline_send_line |].
        intros _. apply closes_finally.
      + apply closes_bind.
        * split; [| done]. intros w0. cbn. unfold register_section.
          destruct (clients w0 !! Py.strip line); cbn; [by right | by left].
        * intros []; [| apply closes_finally].
          apply closes_bind; [unfold greeting; repeat discipline_step |].
          intros _. apply closes_bind; [apply discipline_main_loop |].
          intros _. apply closes_finally.
    - apply closes_finally. }
  destruct (H (exec (send_line conn "[SERVER] Welcome! Enter your username:") w).2)
    as [log Hlog].
  exists log. rewrite Hlog. destruct w as [cl pr wi]. cbn.
  by rewrite <- app_assoc.
Qed.

(** X17. Pairings without interleaving.  In a world reached by
    registrations of free names, turns of the main loop for registered
    users and teardowns, each run to its end before the next begins, every
    pairing entry points back, both names are registered, and neither is
    empty. *)
Theorem serial_pairs_are_mutual w a b :
  serial w → pairs w !! a = Some b →
  pairs w !! b = Some a
  ∧ is_Some (clients w !! a) ∧ is_Some (clients w !! b) ∧ a ≠ "" ∧ b ≠ "".
Proof.
  intros Hs%serial_well_paired Hab.
  assert (Hba := wp_sym _ Hs _ _ Hab).
  assert (Ha := wp_reg _ Hs _ _ Hab). assert (Hb := wp_reg _ Hs _ _ Hba).
  assert (Hn := wp_name _ Hs).
  split; [done |]. split; [done |]. split; [done |].
  split; intros ->; rewrite Hn in *; by eapply is_Some_None.
Qed.

Lemma serial_pairs_are_mutual_witness :
  let w1 := (exec (with_lock (register_section 1 "alice")) boot).2 in
  let w2 := (exec (with_lock (register_section 2 "bob")) w1).2 in
  let w3 := (exec (loop_body 1 "alice" (String.append "/chat bob" Py.newline)) w2).2 in
  pairs w3 !! "bob" = Some "alice"
  ∧ is_Some (clients w3 !! "alice") ∧ is_Some (clients w3 !! "bob")
  ∧ "alice" ≠ "" ∧ "bob" ≠ "".
Proof.
  cbv zeta.
  apply serial_pairs_are_mutual; [| vm_compute; reflexivity].
  apply serial_line; [| vm_compute; eauto].
  apply serial_register; [| discriminate | vm_compute; reflexivity].
  apply serial_register; [| discriminate | vm_compute; reflexivity].
  apply serial_boot.
Defined.

(** ** Strings: reversal and the characters at both ends *)

Lemma append_cons c (a b : string) : String c a +:+ b = String c (a +:+ b).
Proof. reflexivity. Qed.

Lemma append_nil_l (b : string) : "" +:+ b = b.
Proof. reflexivity. Qed.

Lemma append_nil_r s : s +:+ "" = s.
Proof.
  induction s as [| c s IH]; [done |]. by rewrite append_cons, IH.
Qed.

Lemma append_assoc (a b c : string) : (a +:+ b) +:+ c = a +:+ (b +:+ c).
Proof.
  induction a as [| x a IH]; [done |]. by rewrite !append_cons, IH.
Qed.

Lemma rev_app_spec s t : String.rev_app s t = String.rev s +:+ t.
Proof.
  unfold String.rev. revert t.
  induction s as [| c s IH]; intros t; cbn; [done |].
  rewrite (IH (String c "")), IH, append_assoc. done.
Qed.

Lemma rev_cons c s : String.rev (String c s) = String.rev s +:+ String c "".
Proof. unfold String.rev at 1. cbn. apply rev_app_spec. Qed.

Lemma rev_append a b : String.rev (a +:+ b) = String.rev b +:+ String.rev a.
Proof.
  induction a as [| c a IH]; [by rewrite append_nil_r |].
  by rewrite append_cons, !rev_cons, IH, append_assoc.
Qed.

Lemma rev_involutive s : String.rev (String.rev s) = s.
Proof.
  induction s as [| c s IH]; [done |].
  by rewrite rev_cons, rev_append, IH.
Qed.

Lemma all_chars_append p a b :
  all_chars p (a +:+ b) = all_chars p a && all_chars p b.
Proof.
  induction a as [| c a IH]; [done |].
  rewrite append_cons. cbn. by rewrite IH, andb_assoc.
Qed.

Lemma all_chars_rev p s : all_chars p (String.rev s) = all_chars p s.
Proof.
  induction s as [| c s IH]; [done |].
  rewrite rev_cons, all_chars_append, IH. cbn.
  by rewrite andb_true_r, andb_comm.
Qed.

(** [drop_while] cuts off a prefix of characters that satisfy [p]. *)
Lemma drop_while_split p s :
  ∃ u, s = u +:+ Py.drop_while p s ∧ all_chars p u = true.
Proof.
  induction s as [| c s (u & Hu & Hp)]; [by exists "" |]. cbn.
  destruct (p c) eqn:Hc; [| by exists ""].
  exists (String c u). rewrite append_cons. cbn. by rewrite Hc, <- Hu.
Qed.

Lemma drop_while_all p s : all_chars p s = true → Py.drop_while p s = "".
Proof.
  induction s as [| c s IH]; cbn; [done |].
  intros [Hc Hs]%andb_true_iff. rewrite Hc. auto.
Qed.

Lemma drop_while_append p a b :
  all_chars p a = true → Py.drop_while p (a +:+ b) = Py.drop_while p b.
Proof.
  induction a as [| c a IH]; [done |]. rewrite append_cons. cbn.
  intros [Hc Hs]%andb_true_iff. rewrite Hc. auto.
Qed.

Lemma rdrop_snoc p s c :
  rdrop p (s +:+ String c "")
  = if p c then rdrop p s else s +:+ String c "".
Proof.
  unfold rdrop. rewrite rev_append.
  change (String.rev (String c "")) with (String c "").
  rewrite append_cons, append_nil_l. cbn [Py.drop_while].
  destruct (p c); [done |]. by rewrite rev_cons, rev_involutive.
Qed.

Lemma rdrop_split p s : ∃ u, s = rdrop p s +:+ u ∧ all_chars p u = true.
Proof.
  destruct (drop_while_split p (String.rev s)) as (u & Hu & Hp).
  exists (String.rev u). split; [| by rewrite all_chars_rev].
  unfold rdrop. by rewrite <- rev_append, <- Hu, rev_involutive.
Qed.

Lemma rdrop_append_all p a b :
  all_chars p b = true → rdrop p (a +:+ b) = rdrop p a.
Proof.
  intros Hb. unfold rdrop. rewrite rev_append, drop_while_append; [done |].
  by rewrite all_chars_rev.
Qed.

(** What [rdrop] leaves is empty or ends with a character that does not
    satisfy [p]. *)
Lemma rdrop_last p s :
  rdrop p s = "" ∨ ∃ u c, rdrop p s = u +:+ String c "" ∧ p c = false.
Proof.
  unfold rdrop. generalize (String.rev s) as t. intros t.
  induction t as [| c t IH]; cbn [Py.drop_while]; [by left |].
  destruct (p c) eqn:Hc; [done |]. right.
  exists (String.rev t), c. by rewrite rev_cons.
Qed.

Lemma rdrop_fixed p u c : p c = false →
  rdrop p (u +:+ String c "") = u +:+ String c "".
Proof. intros Hc. by rewrite rdrop_snoc, Hc. Qed.

(** ** Whitespace and [strip] *)

Lemma lower_char_isspace c : Py.isspace (Py.lower_char c) = Py.isspace c.
Proof. destruct c as [[] [] [] [] [] [] [] []]; vm_compute; reflexivity. Qed.

Lemma lower_all_nonspace s :
  all_chars (λ c, negb (Py.isspace c)) (Py.lower s)
  = all_chars (λ c, negb (Py.isspace c)) s.
Proof.
  induction s as [| c s IH]; [done |]. cbn.
  by rewrite lower_char_isspace, IH.
Qed.

Lemma newline_isspace c : Py.is_newline c = true → Py.isspace c = true.
Proof.
  unfold Py.is_newline, Py.isspace. intros E%Nat.eqb_eq. by rewrite E.
Qed.

Lemma nonspace_not_newline c : Py.isspace c = false → Py.is_newline c = false.
Proof.
  intros Hc. destruct (Py.is_newline c) eqn:E; [| done].
  apply newline_isspace in E. congruence.
Qed.

Lemma lstrip_nonspace c r :
  Py.isspace c = false → Py.lstrip (String c r) = String c r.
Proof. intros Hc. unfold Py.lstrip. cbn. by rewrite Hc. Qed.

Lemma lstrip_head s :
  Py.lstrip s = "" ∨ ∃ c r, Py.lstrip s = String c r ∧ Py.isspace c = false.
Proof.
  unfold Py.lstrip. induction s as [| c s IH]; cbn; [by left |].
  destruct (Py.isspace c) eqn:Hc; [done | right; eauto].
Qed.

(** A result of [strip] that is not empty begins and ends with a character
    that is not whitespace. *)
Lemma strip_shape s :
  Py.strip s ≠ "" →
  (∃ c r, Py.strip s = String c r ∧ Py.isspace c = false)
  ∧ (∃ u d, Py.strip s = u +:+ String d "" ∧ Py.isspace d = false).
Proof.
  intros Hne. unfold Py.strip, Py.rstrip in *.
  change (String.rev (Py.drop_while Py.isspace (String.rev (Py.lstrip s))))
    with (rdrop Py.isspace (Py.lstrip s)) in *.
  split; [| by destruct (rdrop_last Py.isspace (Py.lstrip s))].
  destruct (rdrop_split Py.isspace (Py.lstrip s)) as (u & Hu & _).
  destruct (rdrop Py.isspace (Py.lstrip s)) as [| c r] eqn:E; [done |].
  exists c, r. split; [done |].
  destruct (lstrip_head s) as [H0 | (c' & r' & H1 & Hc)];
    rewrite append_cons in Hu; [by rewrite H0 in Hu |].
  rewrite H1 in Hu. by injection Hu as -> _.
Qed.

Lemma strip_fixed c r u d :
  Py.isspace c = false → Py.isspace d = false →
  String c r = u +:+ String d "" →
  Py.strip (String c r) = String c r.
Proof.
  intros Hc Hd E. unfold Py.strip. rewrite lstrip_nonspace by done.
  unfold Py.rstrip.
  change (rdrop Py.isspace (String c r) = String c r).
  rewrite E. by apply rdrop_fixed.
Qed.

Lemma strip_idempotent s : Py.strip (Py.strip s) = Py.strip s.
Proof.
  destruct (decide (Py.strip s = "")) as [-> | Hne]; [done |].
  destruct (strip_shape s Hne) as [(c & r & E1 & Hc) (u & d & E2 & Hd)].
  rewrite E1 in *. by eapply strip_fixed.
Qed.

Lemma rstrip_newline_line u d :
  Py.is_newline d = false →
  Py.rstrip_newline ((u +:+ String d "") +:+ Py.newline) = u +:+ String d "".
Proof.
  intros Hd. change (rdrop Py.is_newline ((u +:+ String d "") +:+ Py.newline)
                     = u +:+ String d "").
  unfold Py.newline. rewrite rdrop_snoc.
  change (Py.is_newline (ascii_of_nat 10)) with true. cbv iota.
  by apply rdrop_fixed.
Qed.

(** X18. A name as the server registers it can be given to [/chat].
    For every first line whose name, the line without the whitespace around
    it, is not empty, the line made of [/chat], a space and the name is
    read as the command [/chat] with the name as its only argument, inner
    whitespace included; taking the whitespace off the name again gives
    the name, so the target [/chat] looks up is the registered name. *)
Theorem registered_name_is_addressable conn username line :
  Py.strip line ≠ "" →
  reads_as ("/chat " +:+ Py.strip line +:+ Py.newline) "/chat" [Py.strip line]
  ∧ Py.strip (Py.strip line) = Py.strip line
  ∧ loop_body conn username ("/chat " +:+ Py.strip line +:+ Py.newline)
    = do_chat conn username [Py.strip line].
Proof.
  intros Hne.
  destruct (strip_shape line Hne) as [(c & r & E1 & Hc) (u & d & E2 & Hd)].
  assert (Hr : reads_as ("/chat " +:+ Py.strip line +:+ Py.newline) "/chat"
                 [Py.strip line]).
  { assert (Hm : Py.rstrip_newline ("/chat " +:+ Py.strip line +:+ Py.newline)
                 = "/chat " +:+ Py.strip line).
    { rewrite <- append_assoc, E2, <- (append_assoc "/chat " u).
      apply rstrip_newline_line. by apply nonspace_not_newline. }
    unfold reads_as. rewrite Hm, E1. split; [reflexivity |].
    exists "/chat". split; [| reflexivity].
    unfold Py.split1.
    change ("/chat " +:+ String c r)
      with (String "/" (String "c" (String "h" (String "a" (String "t"
              (String " " (String c r))))))).
    rewrite lstrip_nonspace by reflexivity. cbv zeta.
    cbn [Py.take_until Py.drop_while].
    change (Py.isspace "/") with false. change (Py.isspace "c") with false.
    change (Py.isspace "h") with false. change (Py.isspace "a") with false.
    change (Py.isspace "t") with false. change (Py.isspace " ") with true.
    cbn [negb]. cbv iota.
    change (Py.lstrip (String " " (String c r)))
      with (Py.lstrip (String c r)).
    by rewrite lstrip_nonspace. }
  split; [done |]. split; [apply strip_idempotent |].
  rewrite (loop_body_command _ _ _ _ _ Hr).
  rewrite (decide_False (P := "/chat" = "/users")) by done.
  by rewrite (decide_True (P := "/chat" = "/chat")).
Qed.

Lemma registered_name_is_addressable_witness :
  loop_body 1 "alice"
    (String.append "/chat " (String.append (Py.strip "  bob smith  ") Py.newline))
  = do_chat 1 "alice" [Py.strip "  bob smith  "].
Proof.
  apply (registered_name_is_addressable 1 "alice" "  bob smith  ").
  vm_compute. discriminate.
Defined.

(** ** The line that stops the client *)

Lemma take_until_append p n t :
  all_chars (λ c, negb (p c)) n = true → all_chars p t = true →
  Py.take_until p (n +:+ t) = n.
Proof.
  intros Hn Ht. induction n as [| c n IH].
  - rewrite append_nil_l. destruct t as [| c t]; [done |]. cbn in *.
    by destruct (p c).
  - rewrite append_cons. cbn in *. apply andb_true_iff in Hn as [Hc Hn].
    apply negb_true_iff in Hc. rewrite Hc. by rewrite IH.
Qed.

Lemma drop_while_none p t :
  all_chars p t = true → Py.drop_while (λ c, negb (p c)) t = t.
Proof.
  destruct t as [| c t]; [done |]. cbn.
  intros [Hc _]%andb_true_iff. by rewrite Hc.
Qed.

(** A word followed by whitespace alone splits into the word. *)
Lemma split1_word c r t :
  all_chars (λ c, negb (Py.isspace c)) (String c r) = true →
  all_chars Py.isspace t = true →
  Py.split1 (String c r +:+ t) = [String c r].
Proof.
  intros Hn Ht. unfold Py.split1.
  assert (Hc : Py.isspace c = false).
  { cbn in Hn. apply andb_true_iff in Hn as [Hc _].
    by apply negb_true_iff in Hc. }
  assert (E : Py.lstrip (String c r +:+ t) = String c r +:+ t)
    by (rewrite append_cons; by apply lstrip_nonspace).
  rewrite E. cbv zeta. rewrite take_until_append by done.
  rewrite drop_while_append by done. rewrite drop_while_none by done.
  unfold Py.lstrip. rewrite drop_while_all by done. by rewrite append_cons.
Qed.

Lemma rdrop_append_keep p u d b :
  p d = false →
  rdrop p ((u +:+ String d "") +:+ b) = (u +:+ String d "") +:+ rdrop p b.
Proof.
  intros Hd. destruct (rdrop_split p b) as (v & Hv & Hp).
  rewrite Hv at 1. rewrite <- append_assoc, rdrop_append_all by done.
  destruct (rdrop_last p b) as [-> | (u2 & c2 & -> & Hc2)].
  - rewrite append_nil_r. by apply rdrop_fixed.
  - rewrite <- append_assoc. by apply rdrop_fixed.
Qed.

Lemma all_chars_rdrop p q s :
  all_chars q s = true → all_chars q (rdrop p s) = true.
Proof.
  intros Hs. destruct (rdrop_split p s) as (v & Hv & _).
  rewrite Hv, all_chars_append in Hs. by apply andb_true_iff in Hs as [? _].
Qed.

Lemma all_chars_impl (p q : ascii → bool) s :
  (∀ c, p c = true → q c = true) → all_chars p s = true → all_chars q s = true.
Proof.
  intros Hpq. induction s as [| c s IH]; cbn; [done |].
  intros [Hc Hs]%andb_true_iff. apply andb_true_iff. auto.
Qed.

(** The line on which the client stops, when it begins with the slash, is a
    [/quit] for the server. *)
Lemma client_quit_reads_as user_input :
  Py.lower (Py.strip user_input) = "/quit" →
  Py.startswith_slash user_input = true →
  reads_as (user_input +:+ Py.newline) "/quit" [].
Proof.
  intros Hq Hs.
  destruct user_input as [| c0 r0]; [done |].
  assert (Hc0 : Py.isspace c0 = false).
  { cbn in Hs. apply Nat.eqb_eq in Hs. unfold Py.isspace. by rewrite Hs. }
  assert (Hne : Py.strip (String c0 r0) ≠ "") by (by intros E; rewrite E in Hq).
  destruct (strip_shape _ Hne) as [(c & r & E1 & Hc) (u & d & E2 & Hd)].
  assert (Hn : all_chars (λ c, negb (Py.isspace c)) (Py.strip (String c0 r0))
               = true).
  { by rewrite <- lower_all_nonspace, Hq. }
  (* the input is the word followed by whitespace *)
  assert (Hsplit : ∃ t, String c0 r0 = Py.strip (String c0 r0) +:+ t
                        ∧ all_chars Py.isspace t = true).
  { unfold Py.strip. rewrite lstrip_nonspace by done.
    apply (rdrop_split Py.isspace). }
  destruct Hsplit as (t & Ht & Hws).
  assert (Hcc : c = c0).
  { rewrite E1, append_cons in Ht. by injection Ht as -> _. }
  (* the line without its end is the word followed by whitespace *)
  assert (Hm : ∃ t', Py.rstrip_newline (String c0 r0 +:+ Py.newline)
                     = Py.strip (String c0 r0) +:+ t'
                     ∧ all_chars Py.isspace t' = true).
  { exists (rdrop Py.is_newline (t +:+ Py.newline)). split.
    - rewrite Ht at 1. rewrite append_assoc, E2.
      apply rdrop_append_keep. by apply nonspace_not_newline.
    - apply all_chars_rdrop. rewrite all_chars_append, Hws. reflexivity. }
  destruct Hm as (t' & Hm & Hws').
  unfold reads_as. rewrite Hm.
  split.
  - rewrite E1, append_cons, Hcc. exact Hs.
  - exists (Py.strip (String c0 r0)). split; [| done].
    rewrite E1 in Hn |- *. by apply split1_word.
Qed.

(** X19. The line on which the client stops is a [/quit] for the server.
    When the client ends its input loop on a line, that is, the line is
    [/quit] up to the case of the letters and whitespace around it, and
    the line begins with the slash, the server answers the line as sent
    with the farewell and ends the loop. *)
Theorem quit_is_understood conn username user_input w :
  Py.lower (Py.strip user_input) = "/quit" →
  Py.startswith_slash user_input = true →
  exec (loop_body conn username (user_input +:+ Py.newline)) w
  = (Break, emit (Sent conn ("[SERVER] Bye." +:+ Py.newline)) w).
Proof.
  intros Hq Hs.
  rewrite (loop_body_command _ _ _ _ _ (client_quit_reads_as _ Hq Hs)).
  rewrite !(decide_False (P := "/quit" = _)) by done.
  by rewrite (decide_True (P := "/quit" = "/quit")).
Qed.

Lemma quit_is_understood_witness :
  exec (loop_body 1 "alice" (String.append "/QUIT  " Py.newline)) alice_and_bob
  = (Break, emit (Sent 1 (String.append "[SERVER] Bye." Py.newline)) alice_and_bob).
Proof.
  apply (quit_is_understood 1 "alice" "/QUIT  " alice_and_bob);
    vm_compute; reflexivity.
Defined.

(** ** Lines on the connection *)

Lemma carried_nil s : carried s [] = "".
Proof. reflexivity. Qed.

Lemma carried_sent s data log :
  carried s (Sent s data :: log) = data +:+ carried s log.
Proof. unfold carried, sent_to. cbn. by rewrite decide_True. Qed.

Lemma carried_sent_other s s' data log :
  s' ≠ s → carried s (Sent s' data :: log) = carried s log.
Proof. intros H. unfold carried, sent_to. cbn. by rewrite decide_False. Qed.

Lemma carried_closed s s' log : carried s (Closed s' :: log) = carried s log.
Proof. reflexivity. Qed.

Lemma carried_reader_closed s s' log :
  carried s (ReaderClosed s' :: log) = carried s log.
Proof. reflexivity. Qed.

(** A line without a terminator inside, once sent, is read back as one
    line. *)
Lemma readlines_line t rest :
  one_line t = true →
  readlines ((t +:+ Py.newline) +:+ rest) = (t +:+ Py.newline) :: readlines rest.
Proof.
  induction t as [| c t IH]; [done |].
  rewrite !append_cons. cbn. intros [Hc Ht]%andb_true_iff.
  apply negb_true_iff in Hc. rewrite Hc. by rewrite IH.
Qed.

Lemma drop_while_free p s :
  all_chars (λ c, negb (p c)) s = true → Py.drop_while p s = s.
Proof.
  destruct s as [| c s]; [done |]. cbn. intros [Hc _]%andb_true_iff.
  apply negb_true_iff in Hc. by rewrite Hc.
Qed.

Lemma rstrip_newline_typed t :
  one_line t = true → Py.rstrip_newline (t +:+ Py.newline) = t.
Proof.
  intros Ht. change (rdrop Py.is_newline (t +:+ Py.newline) = t).
  unfold Py.newline. rewrite rdrop_snoc.
  change (Py.is_newline (ascii_of_nat 10)) with true. cbv iota.
  unfold rdrop. rewrite drop_while_free; [apply rev_involutive |].
  by rewrite all_chars_rev.
Qed.

Lemma delivered_line t rest :
  one_line t = true →
  delivered ((t +:+ Py.newline) +:+ rest) = typed t :: delivered rest.
Proof. intros Ht. unfold delivered. by rewrite readlines_line. Qed.

Lemma client_main_typed sock inputs tail :
  Forall (λ s, one_line s = true ∧ Py.lower (Py.strip s) ≠ "/quit") inputs →
  delivered (carried sock (Client.main sock ((Client.Typed <$> inputs) ++ tail)))
  = (typed <$> inputs) ++ delivered (carried sock (Client.main sock tail)).
Proof.
  induction 1 as [| s inputs [H1 H2] _ IH]; [done |].
  cbn [fmap list_fmap app Client.main].
  rewrite decide_False by done.
  rewrite carried_sent, delivered_line by done. cbn. by rewrite <- IH.
Qed.

(** X20. What the user types is what the server reads.  When the lines
    typed hold no line terminator and none of them stops the client, the
    server's reader gets them one by one, each with its terminator, followed
    by the line that stops the client, or by [/quit] when the keyboard
    raises or is used up; nothing typed after the line that stops the
    client is sent.  The server's [rstrip] gives each line back as typed. *)
Theorem keyboard_lines_arrive sock inputs :
  Forall (λ s, one_line s = true ∧ Py.lower (Py.strip s) ≠ "/quit") inputs →
  (∀ q more, one_line q = true → Py.lower (Py.strip q) = "/quit" →
     delivered (carried sock
       (Client.main sock ((Client.Typed <$> inputs) ++ Client.Typed q :: more)))
     = typed <$> (inputs ++ [q]))
  ∧ (∀ more,
     delivered (carried sock
       (Client.main sock ((Client.Typed <$> inputs) ++ Client.Interrupted :: more)))
     = typed <$> (inputs ++ ["/quit"]))
  ∧ delivered (carried sock (Client.main sock (Client.Typed <$> inputs)))
    = typed <$> (inputs ++ ["/quit"])
  ∧ Forall (λ s, Py.rstrip_newline (s +:+ Py.newline) = s) inputs.
Proof.
  intros Hin. split; [| split; [| split]].
  - intros q more Hq1 Hq2. rewrite client_main_typed by done.
    rewrite fmap_app. f_equal. cbn [Client.main].
    rewrite decide_True by done.
    rewrite carried_sent, carried_closed, carried_nil.
    by rewrite delivered_line.
  - intros more. rewrite client_main_typed by done.
    rewrite fmap_app. f_equal. cbn [Client.main].
    rewrite carried_sent, carried_closed, carried_nil.
    by rewrite delivered_line.
  - rewrite <- (app_nil_r (Client.Typed <$> inputs)).
    rewrite client_main_typed by done.
    rewrite fmap_app. f_equal. cbn [Client.main].
    rewrite carried_sent, carried_closed, carried_nil.
    by rewrite delivered_line.
  - eapply Forall_impl; [exact Hin |]. intros s [Hs _].
    by apply rstrip_newline_typed.
Qed.

Lemma keyboard_lines_arrive_witness :
  delivered (carried 1
    (Client.main 1 [Client.Typed "alice"; Client.Typed "/chat bob";
                    Client.Typed "hello"; Client.Typed " /Quit ";
                    Client.Typed "never sent"]))
  = [typed "alice"; typed "/chat bob"; typed "hello"; typed " /Quit "].
Proof.
  refine (proj1 (keyboard_lines_arrive 1 ["alice"; "/chat bob"; "hello"] _)
            " /Quit " [Client.Typed "never sent"] _ _);
    [| reflexivity | reflexivity].
  repeat constructor; discriminate.
Defined.

(** ** How a turn of the main loop ends *)

Ltac continues :=
  repeat first
    [ progress cbn
    | case_decide
    | case_bool_decide
    | match goal with
      | |- context [match ?m !! ?k with _ => _ end] => destruct (m !! k) eqn:?
      | |- context [match Py.sorted ?l with _ => _ end] => destruct (Py.sorted l)
      end ];
  unfold unpair_section; cbn; repeat case_decide; cbn; done.

Lemma do_message_continues conn username msg w :
  (exec (do_message conn username msg) w).1 = Continue.
Proof. destruct w as [cl pr wi]. unfold do_message. continues. Qed.

Lemma do_leave_continues conn username w :
  (exec (do_leave conn username) w).1 = Continue.
Proof. destruct w as [cl pr wi]. unfold do_leave. continues. Qed.

Lemma do_users_continues conn username w :
  (exec (do_users conn username) w).1 = Continue.
Proof. destruct w as [cl pr wi]. unfold do_users. continues. Qed.

Lemma do_chat_continues conn username args w :
  (exec (do_chat conn username args) w).1 = Continue.
Proof.
  destruct w as [cl pr wi]. unfold do_chat, chat_install.
  destruct args as [| arg more]; [continues |].
  generalize (Py.strip arg) as target. intros target. continues.
Qed.

(** A turn on a line that is not the end of the stream goes on to the next
    line, unless the line is a [/quit]. *)
Lemma loop_body_flow conn username line w :
  line ≠ "" →
  (exec (loop_body conn username line) w).1 = Continue
  ∨ exec (loop_body conn username line) w
    = (Break, emit (Sent conn ("[SERVER] Bye." +:+ Py.newline)) w).
Proof.
  intros Hl.
  destruct (decide (Py.rstrip_newline line = "")) as [Hm | Hm].
  { left. unfold loop_body. by rewrite !decide_False, decide_True by done. }
  destruct (Py.startswith_slash (Py.rstrip_newline line)) eqn:Hs.
  - destruct (Py.split1 (Py.rstrip_newline line)) as [| word args] eqn:Hw;
      [by apply split1_slash in Hs |].
    rewrite (loop_body_command _ _ _ (Py.lower word) args)
      by (split; [done | by exists word]).
    repeat case_decide;
      auto using do_users_continues, do_chat_continues, do_leave_continues.
  - left. rewrite loop_body_message by done. apply do_message_continues.
Qed.

Lemma exec_loop_body_quit conn username line args w :
  reads_as line "/quit" args →
  exec (loop_body conn username line) w
  = (Break, emit (Sent conn ("[SERVER] Bye." +:+ Py.newline)) w).
Proof.
  intros Hr. rewrite (loop_body_command _ _ _ _ _ Hr).
  rewrite !(decide_False (P := "/quit" = _)) by done.
  by rewrite (decide_True (P := "/quit" = "/quit")).
Qed.

Lemma typed_not_empty t : t +:+ Py.newline ≠ "".
Proof. destruct t; discriminate. Qed.

(** The main loop on a stream whose first line is a [/quit]. *)
Lemma exec_main_loop_quit conn username line args rest w :
  reads_as line "/quit" args →
  wire (exec (main_loop conn username (Got line :: rest)) w).2
  = wire w ++ [Sent conn ("[SERVER] Bye." +:+ Py.newline)].
Proof.
  intros Hr. cbn [main_loop]. rewrite exec_bind.
  by rewrite (exec_loop_body_quit _ _ _ _ _ Hr).
Qed.

(** X21. When the client ends, the session ends with the farewell.
    Whatever is typed once the name is registered, provided no line holds a
    line terminator and a line that stops the client begins with the slash,
    the main loop of the server on what the client sends returns, and the
    last line it writes is the farewell to the connection. *)
Theorem client_exit_ends_session conn sock username keys w :
  (∀ s, Client.Typed s ∈ keys →
        one_line s = true
        ∧ (Py.lower (Py.strip s) = "/quit" → Py.startswith_slash s = true)) →
  ∃ log,
    wire (exec (main_loop conn username
                  (delivered (carried sock (Client.main sock keys)))) w).2
    = wire w ++ log ++ [Sent conn ("[SERVER] Bye." +:+ Py.newline)].
Proof.
  assert (Hlast : ∀ w0,
    wire (exec (main_loop conn username
            (delivered (carried sock
               [Sent sock ("/quit" +:+ Py.newline); Closed sock]))) w0).2
    = wire w0 ++ [Sent conn ("[SERVER] Bye." +:+ Py.newline)]).
  { intros w0. rewrite carried_sent, carried_closed, carried_nil.
    rewrite delivered_line by reflexivity.
    apply (exec_main_loop_quit _ _ _ []).
    split; [reflexivity |]. exists "/quit". split; reflexivity. }
  revert w. induction keys as [| [s |] keys IH]; intros w Hk.
  - exists []. apply Hlast.
  - destruct (Hk s) as [Hs Hq]; [apply list_elem_of_here |].
    cbn [Client.main]. rewrite carried_sent. case_decide as Hquit.
    + exists []. rewrite carried_closed, carried_nil.
      rewrite delivered_line by done.
      apply (exec_main_loop_quit _ _ _ []).
      apply client_quit_reads_as; auto.
    + rewrite delivered_line by done. unfold typed. cbn [main_loop].
      rewrite exec_bind.
      destruct (exec_extends conn (loop_body conn username (s +:+ Py.newline)) w)
        as [l1 H1]; [apply discipline_loop_body |].
      destruct (loop_body_flow conn username (s +:+ Py.newline) w
                  (typed_not_empty s)) as [Hc | Hb].
      * rewrite Hc.
        destruct (IH (exec (loop_body conn username (s +:+ Py.newline)) w).2)
          as [l2 H2].
        { intros s' Hs'. apply Hk. by apply list_elem_of_further. }
        exists (l1 ++ l2). by rewrite H2, H1, <- !app_assoc.
      * rewrite Hb. exists []. by destruct w.
  - exists []. apply Hlast.
Qed.

Lemma client_exit_ends_session_witness :
  ∃ log,
    wire (exec (main_loop 1 "alice"
                  (delivered (carried 7
                     (Client.main 7 [Client.Typed "/users";
                                     Client.Typed "hello bob";
                                     Client.Interrupted]))))
            alice_and_bob).2
    = wire alice_and_bob ++ log
      ++ [Sent 1 (String.append "[SERVER] Bye." Py.newline)].
Proof.
  apply client_exit_ends_session. intros s Hs.
  apply elem_of_cons in Hs as [Hs | Hs];
    [injection Hs as ->; split; [reflexivity | discriminate] |].
  apply elem_of_cons in Hs as [Hs | Hs];
    [injection Hs as ->; split; [reflexivity | discriminate] |].
  apply elem_of_cons in Hs as [Hs | Hs]; [discriminate |].
  by apply elem_of_nil in Hs.
Defined.

(** ** What the client shows *)

(** X22. What the client shows.  When everything written to a connection
    is text without a line terminator followed by one, as [send_line]
    writes it, the client prints the texts, one call of [print] each, in
    the order they were sent, and then the notice that the server
    disconnected. *)
Theorem recv_loop_prints_sent_lines s log texts :
  forallb one_line texts = true →
  sent_to s log = (λ t, t +:+ Py.newline) <$> texts →
  Client.recv_loop (delivered (carried s log))
  = texts ++ [Py.newline +:+ "[Disconnected from server]"].
Proof.
  intros Ht Hlog. unfold carried. rewrite Hlog. clear Hlog.
  induction texts as [| t texts IH]; [done |].
  cbn in Ht. apply andb_true_iff in Ht as [Ht1 Ht2].
  cbn [fmap list_fmap foldr]. rewrite delivered_line by done.
  unfold typed. cbn [Client.recv_loop].
  rewrite decide_False by apply typed_not_empty.
  rewrite rstrip_newline_typed by done. cbn. f_equal. by apply IH.
Qed.

Lemma recv_loop_prints_sent_lines_witness :
  Client.recv_loop
    (delivered (carried 1
       (wire (exec (handle_client 1 [typed "alice"; typed "/quit"]) boot).2)))
  = [ "[SERVER] Welcome! Enter your username:";
      "[SERVER] Hello alice!";
      "[SERVER] Commands:";
      "  /users                -> list online users";
      "  /chat <username>      -> start chat with user";
      "  /leave                -> leave current chat";
      "  /quit                 -> disconnect";
      "[SERVER] Tip: after /chat, just type messages normally.";
      "[SERVER] Bye." ]
    ++ [String.append Py.newline "[Disconnected from server]"].
Proof.
  apply recv_loop_prints_sent_lines; vm_compute; reflexivity.
Defined.
